(** * Netflix ETL pipeline: a shallow embedding and its checked properties

    The development follows the repository module by module:
    - [PyStr]      the Python [str] methods and the two regular expressions
                   the transformer applies cell by cell;
    - [Pd]         the fragment of pandas the code uses: cells, rows, frames,
                   column assignment, [drop_duplicates], [dropna],
                   [sort_values];
    - [Utils]      src/src/utils.py (the validators);
    - [Extract]    src/src/extract.py;
    - [Transform]  src/src/transform.py;
    - [Pipeline]   src/src/pipeline.py (the orchestrator).

    Modelling boundaries.  Log calls have no effect on any returned value and
    are left out.  A frame is a sequence of rows sharing a column list; a row
    maps column names to cells.  Column dtypes are not modelled: every column
    behaves as an object column, so a [.str] method acts cell-wise and leaves
    a cell that is not a string missing.  Strings are sequences of code points
    below 256.  What pandas parses or prints on its own (dates, numbers) is a
    parameter of the development, see [Runtime]. *)

From Stdlib Require Import ZArith QArith Qcanon Qround String Ascii.
From stdpp Require Import gmap strings list sorting pretty.

Local Open Scope string_scope.
Local Open Scope nat_scope.

(** ** Python strings *)

Module PyStr.

Definition LF : ascii := ascii_of_nat 10.

(** [str.isspace] on one code point below 256. *)
Definition is_space (a : ascii) : bool :=
  let n := nat_of_ascii a in
  ((9 <=? n) && (n <=? 13)) || ((28 <=? n) && (n <=? 32))
  || (n =? 133) || (n =? 160).

(** [\d] on one code point below 256: the ASCII digits. *)
Definition is_digit (a : ascii) : bool :=
  let n := nat_of_ascii a in (48 <=? n) && (n <=? 57).

Fixpoint lstrip (s : string) : string :=
  match s with
  | String a s' => if is_space a then lstrip s' else s
  | EmptyString => EmptyString
  end.

Fixpoint rstrip (s : string) : string :=
  match s with
  | String a s' =>
      match rstrip s' with
      | EmptyString => if is_space a then EmptyString else String a EmptyString
      | t => String a t
      end
  | EmptyString => EmptyString
  end.

(** [s.strip()] *)
Definition strip (s : string) : string := rstrip (lstrip s).

(** [s.count(',')] *)
Fixpoint count_comma (s : string) : nat :=
  match s with
  | String a s' => (if Ascii.eqb a "," then 1 else 0) + count_comma s'
  | EmptyString => 0
  end.

(** [s.split(',')[0]]: the text before the first comma. *)
Fixpoint split_comma_first (s : string) : string :=
  match s with
  | String a s' => if Ascii.eqb a "," then EmptyString else String a (split_comma_first s')
  | EmptyString => EmptyString
  end.

(** [',' in s], which is what [str.contains(',')] tests. *)
Fixpoint contains_comma (s : string) : bool :=
  match s with
  | String a s' => Ascii.eqb a "," || contains_comma s'
  | EmptyString => false
  end.

(** [len(s.split())]: the number of maximal runs of non-space characters.
    [in_word] tells whether the previous character belonged to a word. *)
Fixpoint count_words_from (in_word : bool) (s : string) : nat :=
  match s with
  | String a s' =>
      if is_space a then count_words_from false s'
      else (if in_word then 0 else 1) + count_words_from true s'
  | EmptyString => 0
  end.

Definition count_words (s : string) : nat := count_words_from false s.

(** *** The pattern [(\d+)]: leftmost, longest run of digits. *)

Fixpoint take_digits (s : string) : string :=
  match s with
  | String a s' => if is_digit a then String a (take_digits s') else EmptyString
  | EmptyString => EmptyString
  end.

Fixpoint search_digits (s : string) : option string :=
  match s with
  | String a s' =>
      if is_digit a then Some (String a (take_digits s')) else search_digits s'
  | EmptyString => None
  end.

(** [float] / [int] of a string of ASCII digits. *)
Fixpoint digits_value_from (acc : Z) (s : string) : Z :=
  match s with
  | String a s' => digits_value_from (10 * acc + (Z.of_nat (nat_of_ascii a) - 48))%Z s'
  | EmptyString => acc
  end.

Definition digits_value (s : string) : Z := digits_value_from 0 s.

(** *** The pattern [(min|Season|Seasons)$]. *)

Fixpoint strip_prefix (p s : string) : option string :=
  match p, s with
  | EmptyString, _ => Some s
  | String a p', String b s' => if Ascii.eqb a b then strip_prefix p' s' else None
  | String _ _, EmptyString => None
  end.

(** Python's [$] holds at the end of the text and also just before a
    newline that ends the text. *)
Definition at_dollar (rest : string) : bool :=
  match rest with
  | EmptyString => true
  | String a EmptyString => Ascii.eqb a LF
  | _ => false
  end.

Definition alt_matches_here (alt s : string) : bool :=
  match strip_prefix alt s with
  | Some rest => at_dollar rest
  | None => false
  end.

Definition unit_alternatives : list string := ["min"; "Season"; "Seasons"].

(** The alternatives are tried in order at one start position. *)
Definition match_unit_here (s : string) : option string :=
  List.find (fun alt => alt_matches_here alt s) unit_alternatives.

(** [re.search]: the leftmost start position at which the pattern matches. *)
Fixpoint search_unit (s : string) : option string :=
  match match_unit_here s with
  | Some u => Some u
  | None =>
      match s with
      | String _ s' => search_unit s'
      | EmptyString => None
      end
  end.

End PyStr.

(** ** Python exceptions *)

Inductive exn : Type :=
| KeyError
| TypeError
| UnicodeDecodeError
| OtherException.

(** The outcome of a call: a returned value or a raised exception. *)
Inductive result (A : Type) : Type :=
| Ret (a : A)
| Raise (e : exn).

Arguments Ret {A} a.
Arguments Raise {A} e.

(** Sequencing: an exception raised by the first call ends the block. *)
Global Instance result_ret : MRet result := @Ret.

Global Instance result_bind : MBind result := fun A B k m =>
  match m with
  | Ret a => k a
  | Raise e => Raise e
  end.

(** ** The pandas fragment *)

(** What the libraries decide on their own, one run at a time: how
    [pd.to_datetime] and [pd.to_numeric] read one string (with
    [errors='coerce'], [None] is a value that becomes missing), how
    [astype(str)] prints a number and a timestamp, and the year
    [datetime.now().year] returns during the run. *)
Class Runtime := {
  parse_datetime : string -> option Z;
  parse_numeric : string -> option Qc;
  format_numeric : Qc -> string;
  format_datetime : Z -> string;
  current_year : Z
}.

Module Pd.

(** A cell.  [NaN] stands for every missing marker ([NaN], [None], [NaT]);
    a timestamp counts nanoseconds since 1970-01-01. *)
Inductive value : Type :=
| NaN
| Str (s : string)
| Num (q : Qc)
| Bool (b : bool)
| Ts (t : Z).

Global Instance value_eq_dec : EqDecision value.
Proof. solve_decision. Defined.

Global Instance value_inhabited : Inhabited value := populate NaN.

Definition isna (v : value) : bool :=
  match v with NaN => true | _ => false end.

Definition of_Z (z : Z) : value := Num (Qc_of_Z z).
Definition of_nat (n : nat) : value := of_Z (Z.of_nat n).

(** *** Series methods, one cell at a time *)

Section Cells.
Context {rt : Runtime}.

(** [astype(str)] *)
Definition astype_str (v : value) : string :=
  match v with
  | NaN => "nan"
  | Str s => s
  | Num q => format_numeric q
  | Bool b => if b then "True" else "False"
  | Ts t => format_datetime t
  end.

(** [pd.to_datetime(..., errors='coerce')] *)
Definition to_datetime (v : value) : value :=
  match v with
  | Str s => match parse_datetime s with Some t => Ts t | None => NaN end
  | Ts t => Ts t
  | _ => NaN
  end.

(** [pd.to_numeric(..., errors='coerce')] *)
Definition to_numeric (v : value) : value :=
  match v with
  | NaN => NaN
  | Str s => match parse_numeric s with Some q => Num q | None => NaN end
  | Num q => Num q
  | Bool b => of_Z (if b then 1 else 0)
  | Ts t => of_Z t
  end.
End Cells.

(** [replace(tokens, np.nan)]: a cell equal to one of the tokens becomes
    missing; the comparison is on the whole string. *)
Definition replace_nan (tokens : list string) (v : value) : value :=
  match v with
  | Str s => if bool_decide (s ∈ tokens) then NaN else v
  | _ => v
  end.

(** [.str.strip()] *)
Definition str_strip (v : value) : value :=
  match v with Str s => Str (PyStr.strip s) | _ => NaN end.

(** [.str.count(',')] *)
Definition str_count_comma (v : value) : value :=
  match v with Str s => of_nat (PyStr.count_comma s) | _ => NaN end.

(** [.str.len()] *)
Definition str_len (v : value) : value :=
  match v with Str s => of_nat (String.length s) | _ => NaN end.

(** [.str.split().str.len()] *)
Definition str_split_len (v : value) : value :=
  match v with Str s => of_nat (PyStr.count_words s) | _ => NaN end.

(** [.str.split(',').str[0]] *)
Definition str_split_comma_first (v : value) : value :=
  match v with Str s => Str (PyStr.split_comma_first s) | _ => NaN end.

(** [.str.contains(',', na=False)] *)
Definition str_contains_comma (v : value) : value :=
  match v with Str s => Bool (PyStr.contains_comma s) | _ => Bool false end.

(** [.str.extract(r'(\d+)')] *)
Definition str_extract_digits (v : value) : value :=
  match v with
  | Str s => match PyStr.search_digits s with Some d => Str d | None => NaN end
  | _ => NaN
  end.

(** [.str.extract(r'(min|Season|Seasons)$')] *)
Definition str_extract_unit (v : value) : value :=
  match v with
  | Str s => match PyStr.search_unit s with Some u => Str u | None => NaN end
  | _ => NaN
  end.

(** [.astype(float)], as the code applies it: to the matches of [(\d+)],
    which are strings of digits, and to missing cells. *)
Definition astype_float (v : value) : value :=
  match v with
  | Str d => of_Z (PyStr.digits_value d)
  | Num q => Num q
  | Bool b => of_Z (if b then 1 else 0)
  | _ => NaN
  end.

(** [series + 1] *)
Definition add_one (v : value) : value :=
  match v with Num q => Num (q + Qc_of_Z 1)%Qc | _ => NaN end.

(** [a - b] *)
Definition sub (a b : value) : value :=
  match a, b with Num x, Num y => Num (x - y)%Qc | _, _ => NaN end.

(** [(series // 10) * 10] *)
Definition floordiv10_times10 (v : value) : value :=
  match v with
  | Num q => of_Z (Qfloor (q / Qc_of_Z 10)%Qc * 10)
  | _ => NaN
  end.

(** [series < bound] and [series > bound]: false on a missing cell. *)
Definition lt_scalar (v : value) (bound : Z) : bool :=
  match v with Num q => bool_decide (q < Qc_of_Z bound)%Qc | _ => false end.

Definition gt_scalar (v : value) (bound : Z) : bool :=
  match v with Num q => bool_decide (Qc_of_Z bound < q)%Qc | _ => false end.

(** [series == 'text'] *)
Definition eq_scalar (v : value) (s : string) : value :=
  Bool (bool_decide (v = Str s)).

(** [series.isin([...])] *)
Definition isin (v : value) (l : list string) : value :=
  match v with Str s => Bool (bool_decide (s ∈ l)) | _ => Bool false end.

(** [series.map({...})]: a key that is not in the dict gives a missing cell. *)
Definition map_dict (d : list (string * string)) (v : value) : value :=
  match v with
  | Str s =>
      match List.find (fun kv => String.eqb (fst kv) s) d with
      | Some kv => Str (snd kv)
      | None => NaN
      end
  | _ => NaN
  end.

(** [series.fillna(text)] *)
Definition fillna (s : string) (v : value) : value :=
  if isna v then Str s else v.

(** *** Timestamps: [.dt.year], [.dt.month], [.dt.day_name()] *)

Definition ns_per_day : Z := 86400000000000.

Definition days_of_ts (t : Z) : Z := (t / ns_per_day)%Z.

(** The proleptic Gregorian date (year, month, day) of a day number. *)
Definition civil_from_days (z0 : Z) : Z * Z * Z :=
  let z := (z0 + 719468)%Z in
  let era := (z / 146097)%Z in
  let doe := (z - era * 146097)%Z in
  let yoe := ((doe - doe / 1460 + doe / 36524 - doe / 146096) / 365)%Z in
  let doy := (doe - (365 * yoe + yoe / 4 - yoe / 100))%Z in
  let mp := ((5 * doy + 2) / 153)%Z in
  let d := (doy - (153 * mp + 2) / 5 + 1)%Z in
  let m := (if (mp <? 10)%Z then mp + 3 else mp - 9)%Z in
  let y := (yoe + era * 400 + (if (m <=? 2)%Z then 1 else 0))%Z in
  (y, m, d).

Definition day_names : list string :=
  ["Thursday"; "Friday"; "Saturday"; "Sunday"; "Monday"; "Tuesday"; "Wednesday"].

Definition dt_year (v : value) : value :=
  match v with Ts t => of_Z (civil_from_days (days_of_ts t)).1.1 | _ => NaN end.

Definition dt_month (v : value) : value :=
  match v with Ts t => of_Z (civil_from_days (days_of_ts t)).1.2 | _ => NaN end.

Definition dt_day_name (v : value) : value :=
  match v with
  | Ts t => Str (default "" (day_names !! Z.to_nat (days_of_ts t `mod` 7)))
  | _ => NaN
  end.

(** *** Rows and frames *)

Abbreviation row := (gmap string value).

Record DataFrame : Type := {
  columns : list string;
  rows : list row
}.

(** [len(df)] *)
Definition len (df : DataFrame) : nat := length (rows df).

(** [df.empty]: some axis has length zero. *)
Definition empty (df : DataFrame) : bool :=
  match rows df, columns df with
  | _ :: _, _ :: _ => false
  | _, _ => true
  end.

(** [c in df.columns] *)
Definition has_col (c : string) (df : DataFrame) : bool :=
  bool_decide (c ∈ columns df).

(** [row[c]] *)
Definition cell (r : row) (c : string) : value := default NaN (r !! c).

(** [df[c] = f(df)], computed row by row: a new column goes last, an
    existing one is overwritten in place. *)
Definition assign (c : string) (f : row -> value) (df : DataFrame) : DataFrame :=
  {| columns := if has_col c df then columns df else (columns df ++ [c])%list;
     rows := (fun r => <[c := f r]> r) <$> rows df |}.

(** The guard [if c in df.columns: body]. *)
Definition when_col (c : string) (body : DataFrame -> DataFrame)
    (df : DataFrame) : DataFrame :=
  if has_col c df then body df else df.

(** [drop_duplicates()] keeps the first of equal rows; two missing cells
    count as equal. *)
Fixpoint keep_first (l : list row) : list row :=
  match l with
  | [] => []
  | r :: l' => r :: filter (fun x => x ≠ r) (keep_first l')
  end.

Definition drop_duplicates (df : DataFrame) : DataFrame :=
  {| columns := columns df; rows := keep_first (rows df) |}.

(** [dropna(subset=cols)]: a column of [cols] that the frame lacks raises
    [KeyError]; otherwise the rows with a missing cell in [cols] go. *)
Definition complete_on (cols : list string) (r : row) : bool :=
  forallb (fun c => negb (isna (cell r c))) cols.

Definition dropna (cols : list string) (df : DataFrame) : result DataFrame :=
  if forallb (fun c => has_col c df) cols
  then Ret {| columns := columns df;
              rows := List.filter (complete_on cols) (rows df) |}
  else Raise KeyError.

(** *** [sort_values(by, na_position='last')] *)

(** Cells of one kind compare by their values; between kinds the order
    is fixed by [kind_rank], with the missing cell last. *)
Definition kind_rank (v : value) : nat :=
  match v with
  | Bool _ => 0
  | Num _ => 1
  | Ts _ => 2
  | Str _ => 3
  | NaN => 4
  end.

Definition value_leb (a b : value) : bool :=
  match a, b with
  | Bool x, Bool y => implb x y
  | Num x, Num y => bool_decide (x ≤ y)%Qc
  | Ts x, Ts y => (x <=? y)%Z
  | Str x, Str y => String.leb x y
  | _, _ => kind_rank a <=? kind_rank b
  end.

(** Lexicographic order on the key columns [by]. *)
Fixpoint key_leb (by_ : list string) (r1 r2 : row) : bool :=
  match by_ with
  | [] => true
  | c :: by' =>
      if decide (cell r1 c = cell r2 c) then key_leb by' r1 r2
      else value_leb (cell r1 c) (cell r2 c)
  end.

(** The sort on several keys is stable (pandas sorts the key codes with
    [numpy.lexsort]); a stable sort has one result, computed here by
    insertion. *)
Fixpoint insert_sorted (leb : row -> row -> bool) (x : row) (l : list row) : list row :=
  match l with
  | [] => [x]
  | y :: l' => if leb x y then x :: l else y :: insert_sorted leb x l'
  end.

Definition stable_sort (leb : row -> row -> bool) (l : list row) : list row :=
  foldr (insert_sorted leb) [] l.

Definition sort_values (by_ : list string) (df : DataFrame) : DataFrame :=
  {| columns := columns df; rows := stable_sort (key_leb by_) (rows df) |}.

(** The order the sort establishes, and the rows it must not reorder:
    two rows have the same key when they agree on every key column. *)
Definition key_le (by_ : list string) (r1 r2 : row) : Prop :=
  key_leb by_ r1 r2 = true.

Definition same_key (by_ : list string) (r1 r2 : row) : Prop :=
  Forall (fun c => cell r1 c = cell r2 c) by_.

Global Instance same_key_dec by_ r1 r2 : Decision (same_key by_ r1 r2).
Proof. unfold same_key. apply _. Defined.

End Pd.

(** ** src/src/utils.py *)

Module Utils.
Import Pd.

(** [validar_dados]: the argument may be [None]. *)
Definition validar_dados (data : option DataFrame) : bool :=
  match data with
  | None => false
  | Some df => if empty df then false else true
  end.

Definition colunas_obrigatorias : list string :=
  ["show_id"; "type"; "title"; "director"; "cast"; "country";
   "date_added"; "release_year"; "rating"; "duration"; "listed_in";
   "description"].

Definition colunas_ausentes (df : DataFrame) : list string :=
  List.filter (fun col => negb (has_col col df)) colunas_obrigatorias.

Definition validar_dados_netflix (df : DataFrame) : bool :=
  match colunas_ausentes df with
  | [] => true
  | _ :: _ => false
  end.

Definition validate_data := validar_dados.
Definition validate_netflix_data := validar_dados_netflix.

(** [df.duplicated()]: a row is marked when an equal row stands above
    it. [seen] holds the rows already passed. *)
Fixpoint duplicated_from (seen l : list row) : list bool :=
  match l with
  | [] => []
  | r :: l' => bool_decide (r ∈ seen) :: duplicated_from (r :: seen) l'
  end.

Definition duplicated (df : DataFrame) : list bool :=
  duplicated_from [] (rows df).

(** The sum of a boolean column. *)
Definition sum_bool (l : list bool) : nat :=
  length (List.filter (fun b => b) l).

(** [df.isnull().sum().to_dict()]: for each column, the number of rows
    whose cell is missing. *)
Definition isnull_sum (df : DataFrame) : list (string * nat) :=
  List.map (fun c => (c, sum_bool (List.map (fun r => isna (cell r c)) (rows df))))
           (columns df).

(** The entries of the quality report that do not depend on the dtype
    or on the memory layout of the columns. *)
Record relatorio : Type := {
  total_linhas : nat;
  total_colunas : nat;
  valores_ausentes : list (string * nat);
  linhas_duplicadas : nat
}.

Definition get_relatorio_qualidade_dados (df : DataFrame) : relatorio :=
  {| total_linhas := len df;
     total_colunas := length (columns df);
     valores_ausentes := isnull_sum df;
     linhas_duplicadas := sum_bool (duplicated df) |}.

Definition get_data_quality_report := get_relatorio_qualidade_dados.

(** Reading one entry of the [valores_ausentes] dictionary. *)
Definition ausentes (rel : relatorio) (c : string) : option nat :=
  snd <$> List.find (fun e => String.eqb (fst e) c) (valores_ausentes rel).

End Utils.

(** ** src/src/config.py *)

Module Config.

Definition RETRY_COUNT : nat := 3.

End Config.

(** ** src/src/extract.py *)

Module Extract.
Import Pd Utils.

(** What [pd.read_csv(path, encoding=...)] does with the file: it returns
    a frame, raises [UnicodeDecodeError], or raises another exception
    (an empty or malformed file, a permission error, ...). *)
Inductive read_outcome : Type :=
| ReadFrame (df : DataFrame)
| ReadDecodeError
| ReadOtherError.

(** The file behind a path, as the extractor can observe it. *)
Record csv_file : Type := {
  file_exists : bool;
  read_utf8 : read_outcome;
  read_latin1 : read_outcome
}.

Definition extract_netflix_data (f : csv_file) : option DataFrame :=
  if negb (file_exists f) then None
  else
    match read_utf8 f with
    | ReadFrame df =>
        if negb (validate_data (Some df)) then None
        else if negb (validate_netflix_data df) then None
        else Some df
    | ReadDecodeError =>
        match read_latin1 f with
        | ReadFrame df => Some df
        | _ => None
        end
    | ReadOtherError => None
    end.

Definition extract_csv (f : csv_file) : option DataFrame :=
  if negb (file_exists f) then None
  else
    match read_utf8 f with
    | ReadFrame df => if validate_data (Some df) then Some df else None
    | ReadDecodeError =>
        match read_latin1 f with
        | ReadFrame df => if validate_data (Some df) then Some df else None
        | _ => None
        end
    | ReadOtherError => None
    end.

(** One pass through the body of the retry loop of [extract_from_api]:
    the request, [raise_for_status], [response.json()] and
    [pd.DataFrame(data)] give a frame, or one of them raises; every
    exception is caught by one of the four handlers, which only log. *)
Inductive api_outcome : Type :=
| ApiFrame (df : DataFrame)
| ApiRaises.

(** The endpoint as the extractor can observe it: what the request
    numbered [n] (from 0) gives. *)
Definition api := nat -> api_outcome.

(** [for attempt in range(...)], with [todo] passes left and [attempt]
    the number of the next one. *)
Fixpoint api_attempts (respond : api) (todo attempt : nat) : option DataFrame :=
  match todo with
  | O => None
  | S todo' =>
      match respond attempt with
      | ApiFrame df => if validate_data (Some df) then Some df else None
      | ApiRaises => api_attempts respond todo' (S attempt)
      end
  end.

Definition extract_from_api (respond : api) : option DataFrame :=
  api_attempts respond Config.RETRY_COUNT 0.

(** The requests [extract_from_api] sends, by the same loop. *)
Fixpoint api_requests (respond : api) (todo attempt : nat) : list nat :=
  match todo with
  | O => []
  | S todo' =>
      attempt ::
      match respond attempt with
      | ApiFrame _ => []
      | ApiRaises => api_requests respond todo' (S attempt)
      end
  end.

Definition requests_sent (respond : api) : list nat :=
  api_requests respond Config.RETRY_COUNT 0.

(** [extract_data]: [source] names an endpoint or a file, given here by
    what each of them would answer. *)
Definition extract_data (source_type : string) (respond : api) (f : csv_file)
  : option DataFrame :=
  if String.eqb source_type "api" then extract_from_api respond
  else if String.eqb source_type "csv" then extract_csv f
  else if String.eqb source_type "netflix" then extract_netflix_data f
  else None.

End Extract.

(** ** src/src/transform.py *)

Module Transform.
Import Pd.

Section WithRuntime.
Context {rt : Runtime}.

Definition critical_columns : list string := ["show_id"; "title"; "type"].

Definition clean_basic_data (df : DataFrame) : result DataFrame :=
  let df := drop_duplicates df in
  dropna critical_columns df.

Definition transform_dates (df : DataFrame) : DataFrame :=
  let df :=
    when_col "date_added" (fun df =>
      let df := assign "date_added"
                  (fun r => str_strip (Str (astype_str (cell r "date_added")))) df in
      let df := assign "date_added"
                  (fun r => replace_nan ["nan"; "None"; ""] (cell r "date_added")) df in
      let df := assign "date_added" (fun r => to_datetime (cell r "date_added")) df in
      let df := assign "date_added_year" (fun r => dt_year (cell r "date_added")) df in
      let df := assign "date_added_month" (fun r => dt_month (cell r "date_added")) df in
      assign "date_added_day_of_week" (fun r => dt_day_name (cell r "date_added")) df)
      df in
  when_col "release_year" (fun df =>
    let df := assign "release_year" (fun r => to_numeric (cell r "release_year")) df in
    let df := assign "release_year"
                (fun r =>
                   if lt_scalar (cell r "release_year") 1900
                      || gt_scalar (cell r "release_year") (current_year + 2)
                   then NaN else cell r "release_year") df in
    assign "decade" (fun r => floordiv10_times10 (cell r "release_year")) df)
    df.

Definition text_columns : list string :=
  ["title"; "director"; "cast"; "country"; "rating"; "listed_in"; "description"].

(** The body of the loop over [text_columns]. *)
Definition clean_text_column (df : DataFrame) (col : string) : DataFrame :=
  when_col col (fun df =>
    let df := assign col (fun r => Str (astype_str (cell r col))) df in
    let df := assign col (fun r => replace_nan ["nan"; "None"] (cell r col)) df in
    let df := assign col (fun r => str_strip (cell r col)) df in
    assign col (fun r => replace_nan [""] (cell r col)) df)
    df.

Definition clean_text_columns (df : DataFrame) : DataFrame :=
  let df := foldl clean_text_column df text_columns in
  when_col "duration" (fun df =>
    let df := assign "duration"
                (fun r => str_strip (Str (astype_str (cell r "duration")))) df in
    assign "duration" (fun r => replace_nan ["nan"; "None"; ""] (cell r "duration")) df)
    df.

Definition list_columns : list string := ["cast"; "director"; "country"; "listed_in"].

(** The body of the loop over [list_columns]. *)
Definition count_items (df : DataFrame) (col : string) : DataFrame :=
  when_col col (fun df =>
    let df := assign (col +:+ "_count")
                (fun r => add_one (str_count_comma (cell r col))) df in
    assign (col +:+ "_count")
      (fun r => if isna (cell r col) then of_Z 0 else cell r (col +:+ "_count")) df)
    df.

Definition rating_table : list (string * string) :=
  [("G", "Kids"); ("TV-Y", "Kids"); ("TV-Y7", "Kids"); ("TV-Y7-FV", "Kids");
   ("PG", "Family"); ("TV-G", "Family"); ("TV-PG", "Family");
   ("PG-13", "Teen"); ("TV-14", "Teen");
   ("R", "Adult"); ("TV-MA", "Adult"); ("NC-17", "Adult")].

(** The content-age block.  Reading [df['date_added_year']] raises
    [KeyError] when the frame has no such column. *)
Definition content_age (df : DataFrame) : result DataFrame :=
  if has_col "release_year" df && has_col "date_added" df then
    if has_col "date_added_year" df then
      Ret (assign "content_age_when_added"
             (fun r => sub (cell r "date_added_year") (cell r "release_year")) df)
    else Raise KeyError
  else Ret df.

Definition engineer_features (df : DataFrame) : result DataFrame :=
  let df :=
    when_col "duration" (fun df =>
      let df := assign "duration_value"
                  (fun r => astype_float (str_extract_digits (cell r "duration"))) df in
      let df := assign "duration_unit"
                  (fun r => str_extract_unit (cell r "duration")) df in
      let df := assign "is_movie" (fun r => eq_scalar (cell r "duration_unit") "min") df in
      assign "is_tv_show"
        (fun r => isin (cell r "duration_unit") ["Season"; "Seasons"]) df)
      df in
  let df := foldl count_items df list_columns in
  df ← content_age df;
  let df :=
    when_col "description" (fun df =>
      let df := assign "description_length" (fun r => str_len (cell r "description")) df in
      assign "description_word_count"
        (fun r => str_split_len (cell r "description")) df)
      df in
  let df :=
    when_col "rating" (fun df =>
      let df := assign "rating_category"
                  (fun r => map_dict rating_table (cell r "rating")) df in
      assign "rating_category" (fun r => fillna "Other" (cell r "rating_category")) df)
      df in
  Ret df.

Definition categorical_columns : list string :=
  ["type"; "rating"; "rating_category"; "duration_unit"; "date_added_day_of_week"].

(** The body of the loop over [categorical_columns]:
    [astype('category')] changes how a column is stored, not its cells. *)
Definition astype_category (df : DataFrame) (col : string) : DataFrame :=
  when_col col (assign col (fun r => cell r col)) df.

Definition process_categorical_data (df : DataFrame) : DataFrame :=
  let df := foldl astype_category df categorical_columns in
  let df :=
    when_col "country" (fun df =>
      let df := assign "primary_country"
                  (fun r => str_strip (str_split_comma_first (cell r "country"))) df in
      assign "is_international" (fun r => str_contains_comma (cell r "country")) df)
      df in
  when_col "listed_in" (fun df =>
    let df := assign "primary_genre"
                (fun r => str_strip (str_split_comma_first (cell r "listed_in"))) df in
    let df := assign "genre_diversity"
                (fun r => add_one (str_count_comma (cell r "listed_in"))) df in
    assign "genre_diversity"
      (fun r => if isna (cell r "listed_in") then of_Z 0 else cell r "genre_diversity") df)
    df.

(** [reset_index(drop=True)] renumbers the rows; a row's position is its
    index here, so nothing is left to do. *)
Definition final_cleanup (df : DataFrame) : DataFrame :=
  let df := drop_duplicates df in
  let sort_columns :=
    ((if has_col "date_added" df then ["date_added"] else [])
     ++ (if has_col "show_id" df then ["show_id"] else []))%list in
  match sort_columns with
  | [] => df
  | _ :: _ => sort_values sort_columns df
  end.

(** [None] as argument and as returned value is Python's [None]. *)
Definition transform_netflix_data (df : option DataFrame) : result (option DataFrame) :=
  match df with
  | None => Ret None
  | Some df =>
      if empty df then Ret None
      else
        df ← clean_basic_data df;
        let df := transform_dates df in
        let df := clean_text_columns df in
        df ← engineer_features df;
        let df := process_categorical_data df in
        let df := final_cleanup df in
        Ret (Some df)
  end.

Definition transform_data := transform_netflix_data.

End WithRuntime.

End Transform.

(** ** src/src/load.py and src/src/visualizations.py, as the orchestrator
    sees them *)

Module Load.
Import Pd.

(** [load_to_postgres] refuses a missing or empty frame; otherwise the
    body runs inside [try], and every exception of the store is turned
    into [False].  [store_accepts] tells whether the body goes through. *)
Definition load_to_postgres (store_accepts : DataFrame -> bool)
    (df : option DataFrame) : bool :=
  match df with
  | None => false
  | Some df => if empty df then false else store_accepts df
  end.

End Load.

Module Visualizations.
Import Pd.

(** What the body of a report function does inside its [try]: it returns
    the path it wrote, or raises. *)
Inductive body_outcome : Type :=
| BodyReturns (path : string)
| BodyRaises.

(** [create_netflix_dashboard] and [generate_analysis_report] have the
    same shape: [try: body except Exception: handle_error(...); return None]. *)
Definition create_netflix_dashboard (body : option DataFrame -> body_outcome)
    (df : option DataFrame) : result (option string) :=
  match body df with
  | BodyReturns path => Ret (Some path)
  | BodyRaises => Ret None
  end.

Definition generate_analysis_report (body : option DataFrame -> body_outcome)
    (df : option DataFrame) : result (option string) :=
  match body df with
  | BodyReturns path => Ret (Some path)
  | BodyRaises => Ret None
  end.

End Visualizations.

(** ** src/src/pipeline.py *)

Module Pipeline.
Import Pd.

(** Everything outside the process that one run meets: the source file,
    the store, the bodies of the two report functions, and the clock
    readings at the start and at the end. *)
Record world : Type := {
  source : Extract.csv_file;
  store_accepts : DataFrame -> bool;
  dashboard_body : option DataFrame -> Visualizations.body_outcome;
  report_body : option DataFrame -> Visualizations.body_outcome;
  clock_start : Z;
  clock_end : Z
}.

(** The run report, the part of the dict that depends on the run. *)
Record run_report : Type := {
  duration : Z;
  raw_data_rows : nat;
  transformed_data_rows : nat
}.

(** The attributes of a [NetflixETLPipeline] object. *)
Record state : Type := {
  raw_data : option DataFrame;
  transformed_data : option DataFrame;
  pipeline_start_time : option Z;
  pipeline_end_time : option Z;
  pipeline_report : option run_report
}.

(** [__init__] *)
Definition init : state :=
  {| raw_data := None; transformed_data := None;
     pipeline_start_time := None; pipeline_end_time := None;
     pipeline_report := None |}.

Definition set_raw_data (v : option DataFrame) (st : state) : state :=
  {| raw_data := v; transformed_data := transformed_data st;
     pipeline_start_time := pipeline_start_time st;
     pipeline_end_time := pipeline_end_time st;
     pipeline_report := pipeline_report st |}.

Definition set_transformed_data (v : option DataFrame) (st : state) : state :=
  {| raw_data := raw_data st; transformed_data := v;
     pipeline_start_time := pipeline_start_time st;
     pipeline_end_time := pipeline_end_time st;
     pipeline_report := pipeline_report st |}.

Definition set_pipeline_start_time (v : option Z) (st : state) : state :=
  {| raw_data := raw_data st; transformed_data := transformed_data st;
     pipeline_start_time := v;
     pipeline_end_time := pipeline_end_time st;
     pipeline_report := pipeline_report st |}.

Definition set_pipeline_end_time (v : option Z) (st : state) : state :=
  {| raw_data := raw_data st; transformed_data := transformed_data st;
     pipeline_start_time := pipeline_start_time st;
     pipeline_end_time := v;
     pipeline_report := pipeline_report st |}.

Definition set_pipeline_report (v : option run_report) (st : state) : state :=
  {| raw_data := raw_data st; transformed_data := transformed_data st;
     pipeline_start_time := pipeline_start_time st;
     pipeline_end_time := pipeline_end_time st;
     pipeline_report := v |}.

Section WithRuntime.
Context {rt : Runtime}.

(** A method returns the object's new attributes with its outcome. *)

Definition _extract_data (w : world) (st : state) : state * result bool :=
  let st := set_raw_data (Extract.extract_netflix_data (source w)) st in
  match raw_data st with
  | None => (st, Ret false)
  | Some _ => (st, Ret true)
  end.

(** An exception of the transformer leaves the attribute as it was.
    The log lines divide by [len(self.raw_data)], which is not zero
    here: the transformer returns [None] on an empty frame. *)
Definition _transform_data (w : world) (st : state) : state * result bool :=
  match Transform.transform_netflix_data (raw_data st) with
  | Raise e => (st, Raise e)
  | Ret out =>
      let st := set_transformed_data out st in
      match transformed_data st with
      | None => (st, Ret false)
      | Some _ => (st, Ret true)
      end
  end.

(** [get_table_info] only feeds log lines. *)
Definition _load_data (w : world) (st : state) : state * result bool :=
  let success := Load.load_to_postgres (store_accepts w) (transformed_data st) in
  if negb success then (st, Ret false) else (st, Ret true).

Definition _generate_reports (w : world) (st : state) : state * result bool :=
  let attempt : result bool :=
    dashboard_path ←
      Visualizations.create_netflix_dashboard (dashboard_body w) (transformed_data st);
    report_path ←
      Visualizations.generate_analysis_report (report_body w) (transformed_data st);
    Ret true in
  match attempt with
  | Ret b => (st, Ret b)
  | Raise _ => (st, Ret false)
  end.

(** [None - datetime] raises [TypeError].  Writing the report file is
    inside its own [try] and cannot fail the method. *)
Definition _create_pipeline_report (st : state) : state * result unit :=
  match pipeline_end_time st, pipeline_start_time st with
  | Some t_end, Some t_start =>
      let report :=
        {| duration := (t_end - t_start)%Z;
           raw_data_rows := from_option len 0 (raw_data st);
           transformed_data_rows := from_option len 0 (transformed_data st) |} in
      (set_pipeline_report (Some report) st, Ret tt)
  | _, _ => (st, Raise TypeError)
  end.

(** The [try] block of [run_full_pipeline]: the steps in order, each
    [if not step: return False]. *)
Definition run_steps (w : world) (st : state) : state * result bool :=
  match _extract_data w st with
  | (st, Raise e) => (st, Raise e)
  | (st, Ret false) => (st, Ret false)
  | (st, Ret true) =>
  match _transform_data w st with
  | (st, Raise e) => (st, Raise e)
  | (st, Ret false) => (st, Ret false)
  | (st, Ret true) =>
  match _load_data w st with
  | (st, Raise e) => (st, Raise e)
  | (st, Ret false) => (st, Ret false)
  | (st, Ret true) =>
  match _generate_reports w st with
  | (st, Raise e) => (st, Raise e)
  | (st, Ret false) => (st, Ret false)
  | (st, Ret true) =>
  match _create_pipeline_report st with
  | (st, Raise e) => (st, Raise e)
  | (st, Ret tt) =>
      let st := set_pipeline_end_time (Some (clock_end w)) st in
      (st, Ret true)
  end end end end end.

(** [except Exception: handle_error(...); return False] *)
Definition run_full_pipeline (w : world) (st : state) : state * bool :=
  let st := set_pipeline_start_time (Some (clock_start w)) st in
  match run_steps w st with
  | (st, Ret b) => (st, b)
  | (st, Raise _) => (st, false)
  end.

(** [run_netflix_pipeline]: a new object, one run. *)
Definition run_netflix_pipeline (w : world) : bool :=
  (run_full_pipeline w init).2.

End WithRuntime.

End Pipeline.

(** ** A concrete runtime

    One way the libraries can behave, used wherever a statement is evaluated
    on concrete data: dates are read and printed as [YYYY-MM-DD], numbers
    are read from strings of digits, the run takes place in 2024. *)

Module IsoRuntime.
Import Pd.

Definition days_from_civil (y0 m d : Z) : Z :=
  let y := (if (m <=? 2)%Z then y0 - 1 else y0)%Z in
  let era := (y / 400)%Z in
  let yoe := (y - era * 400)%Z in
  let doy := ((153 * (if (2 <? m)%Z then m - 3 else m + 9) + 2) / 5 + d - 1)%Z in
  let doe := (yoe * 365 + yoe / 4 - yoe / 100 + doy)%Z in
  (era * 146097 + doe - 719468)%Z.

Fixpoint all_digits (s : string) : bool :=
  match s with
  | String a s' => PyStr.is_digit a && all_digits s'
  | EmptyString => true
  end.

Definition digits_field (s : string) : option Z :=
  match s with
  | EmptyString => None
  | _ => if all_digits s then Some (PyStr.digits_value s) else None
  end.

Definition iso_parse_datetime (s : string) : option Z :=
  if bool_decide (String.length s = 10 ∧ substring 4 1 s = "-" ∧ substring 7 1 s = "-")
  then
    y ← digits_field (substring 0 4 s);
    m ← digits_field (substring 5 2 s);
    d ← digits_field (substring 8 2 s);
    let n := days_from_civil y m d in
    if bool_decide (civil_from_days n = (y, m, d)) then Some (n * ns_per_day)%Z else None
  else None.

Definition pad (width : nat) (z : Z) : string :=
  let s := pretty z in
  String.concat "" (replicate (width - String.length s) "0") +:+ s.

Definition iso_format_datetime (t : Z) : string :=
  let '(y, m, d) := civil_from_days (days_of_ts t) in
  pad 4 y +:+ "-" +:+ pad 2 m +:+ "-" +:+ pad 2 d.

Definition iso_parse_numeric (s : string) : option Qc :=
  Qc_of_Z <$> digits_field s.

Definition iso_format_numeric (q : Qc) : string :=
  if bool_decide (Qden q = 1%positive) then pretty (Qnum q)
  else pretty (Qnum q) +:+ "/" +:+ pretty (Zpos (Qden q)).

Definition runtime : Runtime := {|
  parse_datetime := iso_parse_datetime;
  parse_numeric := iso_parse_numeric;
  format_numeric := iso_format_numeric;
  format_datetime := iso_format_datetime;
  current_year := 2024
|}.

End IsoRuntime.

(** ** Sample data *)

Module Sample.
Import Pd.

(** One row of the source file, in the column order of the catalog. *)
Definition entry (show_id type title director cast country date_added
    release_year rating duration listed_in description : value) : row :=
  list_to_map
    [("show_id", show_id); ("type", type); ("title", title);
     ("director", director); ("cast", cast); ("country", country);
     ("date_added", date_added); ("release_year", release_year);
     ("rating", rating); ("duration", duration); ("listed_in", listed_in);
     ("description", description)].

Definition movie : row :=
  entry (Str "s2") (Str "Movie") (Str " Amelie ") NaN (Str "x, y")
    (Str "France, Germany") (Str "2021-09-25") (of_Z 1994) (Str "PG-13")
    (Str "90 min") (Str "Drama") (Str "a b c").

Definition series : row :=
  entry (Str "s1") (Str "TV Show") (Str "Dark") NaN NaN NaN NaN (Str "2005")
    (Str "TV-MA") (Str "3 Seasons") (Str "Drama, Comedy") NaN.

(** A title of blanks only: present in the file, missing once cleaned. *)
Definition blank_title : row :=
  entry (Str "s3") (Str "Movie") (Str "  ") NaN NaN NaN (Str "2020-01-01")
    (Str "1800") (Str "XYZ") NaN NaN NaN.

Definition catalog : DataFrame :=
  {| columns := Utils.colunas_obrigatorias;
     rows := [movie; series; movie; blank_title] |}.

(** A cleaned table to sort: two rows with the same key, a missing date. *)
Definition dated (show_id title : string) (date_added : value) : row :=
  list_to_map
    [("show_id", Str show_id); ("title", Str title); ("date_added", date_added)].

Definition unsorted : DataFrame :=
  {| columns := ["show_id"; "title"; "date_added"];
     rows := [dated "s2" "B" (Ts 2); dated "s1" "A" NaN; dated "s9" "C" (Ts 1);
              dated "s2" "D" (Ts 2); dated "s1" "E" (Ts 2)] |}.

(** Two entries that differ in the director only: a placeholder with a
    blank after it, and a missing cell. *)
Definition placeholder_director : row :=
  entry (Str "s7") (Str "Movie") (Str "Solaris") (Str "nan ") NaN NaN NaN NaN NaN
    NaN NaN NaN.

Definition missing_director : row :=
  entry (Str "s7") (Str "Movie") (Str "Solaris") NaN NaN NaN NaN NaN NaN
    NaN NaN NaN.

Definition twins : DataFrame :=
  {| columns := Utils.colunas_obrigatorias;
     rows := [placeholder_director; missing_director] |}.

(** The frame a call returned, the empty frame when it returned [None]
    or raised. *)
Definition returned (r : result (option DataFrame)) : DataFrame :=
  match r with
  | Ret (Some df) => df
  | _ => {| columns := []; rows := [] |}
  end.

(** A table that has none of the required columns. *)
Definition foreign_table : DataFrame :=
  {| columns := ["a"; "b"];
     rows := [list_to_map [("a", Str "é"); ("b", of_Z 1)]] |}.

(** A file whose bytes are not UTF-8 (the byte E9 before a comma) and read
    as Latin-1 give [foreign_table]: [a,b] / [E9,1]. *)
Definition latin1_file : Extract.csv_file :=
  {| Extract.file_exists := true;
     Extract.read_utf8 := Extract.ReadDecodeError;
     Extract.read_latin1 := Extract.ReadFrame foreign_table |}.

(** A header line with a Latin-1 byte and no data line. *)
Definition header_only : DataFrame :=
  {| columns := ["café"; "b"]; rows := [] |}.

Definition latin1_header_file : Extract.csv_file :=
  {| Extract.file_exists := true;
     Extract.read_utf8 := Extract.ReadDecodeError;
     Extract.read_latin1 := Extract.ReadFrame header_only |}.

(** A well-formed UTF-8 file holding [catalog]. *)
Definition catalog_file : Extract.csv_file :=
  {| Extract.file_exists := true;
     Extract.read_utf8 := Extract.ReadFrame catalog;
     Extract.read_latin1 := Extract.ReadFrame catalog |}.

(** A run in which the file is good and the store accepts the rows, and
    building the charts raises. *)
Definition charts_fail : Pipeline.world :=
  {| Pipeline.source := catalog_file;
     Pipeline.store_accepts := fun _ => true;
     Pipeline.dashboard_body := fun _ => Visualizations.BodyRaises;
     Pipeline.report_body := fun _ => Visualizations.BodyReturns "report.md";
     Pipeline.clock_start := 0;
     Pipeline.clock_end := 5 |}.

(** The same run with both report functions going through. *)
Definition all_good : Pipeline.world :=
  {| Pipeline.source := catalog_file;
     Pipeline.store_accepts := fun _ => true;
     Pipeline.dashboard_body := fun _ => Visualizations.BodyReturns "output";
     Pipeline.report_body := fun _ => Visualizations.BodyReturns "report.md";
     Pipeline.clock_start := 0;
     Pipeline.clock_end := 5 |}.

(** An endpoint whose first request raises, whose second answers with a
    table without rows, and which would answer with data from then on. *)
Definition empty_then_data : Extract.api :=
  fun n =>
    match n with
    | 0 => Extract.ApiRaises
    | 1 => Extract.ApiFrame header_only
    | _ => Extract.ApiFrame catalog
    end.

End Sample.

(** ** What the claims say about a row

    The cells the transformer derives, written against the cells they are
    derived from in the same row. *)

Module Derived.
Import Pd.

Section WithRuntime.
Context {rt : Runtime}.

(** The critical cells that no pass rewrites. *)
Definition critical_ok (r : row) : Prop :=
  isna (cell r "show_id") = false /\ isna (cell r "type") = false.

(** A release year is missing or lies between 1900 and two years after
    the current one. *)
Definition year_in_range (v : value) : Prop :=
  match v with
  | NaN => True
  | Num q => (Qc_of_Z 1900 ≤ q ∧ q ≤ Qc_of_Z (current_year + 2))%Qc
  | _ => False
  end.

Definition release_year_ok (r : row) : Prop :=
  year_in_range (cell r "release_year")
  /\ cell r "decade" = floordiv10_times10 (cell r "release_year").

(** A text cell once cleaned: missing, or a string that is not empty and
    has no blank at either end. *)
Definition normalised (v : value) : Prop :=
  match v with
  | NaN => True
  | Str s => PyStr.strip s = s /\ s <> ""
  | _ => False
  end.

Definition duration_ok (r : row) : Prop := normalised (cell r "duration").

Definition duration_features_ok (r : row) : Prop :=
  cell r "duration_value" = astype_float (str_extract_digits (cell r "duration"))
  /\ cell r "duration_unit" = str_extract_unit (cell r "duration")
  /\ cell r "is_movie" = eq_scalar (cell r "duration_unit") "min"
  /\ cell r "is_tv_show" = isin (cell r "duration_unit") ["Season"; "Seasons"].

(** The number of items of a comma-separated cell. *)
Definition item_count (v : value) : value :=
  if isna v then of_Z 0 else add_one (str_count_comma v).

Definition counts_ok (r : row) : Prop :=
  cell r "cast_count" = item_count (cell r "cast")
  /\ cell r "director_count" = item_count (cell r "director")
  /\ cell r "country_count" = item_count (cell r "country")
  /\ cell r "listed_in_count" = item_count (cell r "listed_in").

Definition rating_ok (r : row) : Prop :=
  cell r "rating_category"
  = fillna "Other" (map_dict Transform.rating_table (cell r "rating")).

Definition country_ok (r : row) : Prop :=
  cell r "primary_country" = str_strip (str_split_comma_first (cell r "country"))
  /\ cell r "is_international" = str_contains_comma (cell r "country").

Definition genre_ok (r : row) : Prop :=
  cell r "primary_genre" = str_strip (str_split_comma_first (cell r "listed_in"))
  /\ cell r "genre_diversity" = item_count (cell r "listed_in").

(** What holds once the features are engineered. *)
Definition features_ok (r : row) : Prop :=
  critical_ok r /\ release_year_ok r /\ duration_ok r
  /\ duration_features_ok r /\ counts_ok r /\ rating_ok r.

(** Everything above, as it holds of a row of the transformer's output. *)
Definition derived_ok (r : row) : Prop :=
  critical_ok r /\ release_year_ok r /\ duration_ok r
  /\ duration_features_ok r /\ counts_ok r /\ rating_ok r
  /\ country_ok r /\ genre_ok r.

End WithRuntime.

(** The columns a frame has after each pass, when it came with the
    required ones. *)
Definition columns_after_dates : list string :=
  (Utils.colunas_obrigatorias
   ++ ["date_added_year"; "date_added_month"; "date_added_day_of_week"; "decade"])%list.

Definition columns_after_features : list string :=
  (columns_after_dates ++ ["duration_unit"; "rating_category"])%list.

End Derived.

(** ** What else the code settles about a row and about the schema *)

Module Further.
Import Pd.

(** The columns each pass creates, in the order of their creation. *)
Definition date_columns : list string :=
  ["date_added_year"; "date_added_month"; "date_added_day_of_week"; "decade"].

Definition feature_columns : list string :=
  ["duration_value"; "duration_unit"; "is_movie"; "is_tv_show";
   "cast_count"; "director_count"; "country_count"; "listed_in_count";
   "content_age_when_added"; "description_length"; "description_word_count";
   "rating_category"].

Definition category_columns : list string :=
  ["primary_country"; "is_international"; "primary_genre"; "genre_diversity"].

Definition derived_columns : list string :=
  (date_columns ++ feature_columns ++ category_columns)%list.

(** A cell of [date_added] once parsed. *)
Definition timestamp_or_missing (v : value) : Prop :=
  match v with
  | NaN | Ts _ => True
  | _ => False
  end.

Definition date_ok (r : row) : Prop :=
  timestamp_or_missing (cell r "date_added")
  /\ cell r "date_added_year" = dt_year (cell r "date_added")
  /\ cell r "date_added_month" = dt_month (cell r "date_added")
  /\ cell r "date_added_day_of_week" = dt_day_name (cell r "date_added").

Definition text_ok (r : row) : Prop :=
  Derived.normalised (cell r "title")
  /\ Derived.normalised (cell r "director")
  /\ Derived.normalised (cell r "cast")
  /\ Derived.normalised (cell r "country")
  /\ Derived.normalised (cell r "rating")
  /\ Derived.normalised (cell r "listed_in")
  /\ Derived.normalised (cell r "description").

(** The cell is not one of the two texts that stand for a missing value. *)
Definition cleared (v : value) : Prop := v <> Str "nan" /\ v <> Str "None".

Definition age_ok (r : row) : Prop :=
  cell r "content_age_when_added"
  = sub (cell r "date_added_year") (cell r "release_year").

Definition description_ok (r : row) : Prop :=
  cell r "description_length" = str_len (cell r "description")
  /\ cell r "description_word_count" = str_split_len (cell r "description").

Definition dated_text_ok (r : row) : Prop :=
  date_ok r /\ text_ok r /\ cleared (cell r "duration").

Definition further_ok (r : row) : Prop :=
  date_ok r /\ text_ok r /\ cleared (cell r "duration")
  /\ age_ok r /\ description_ok r.

(** [df[c] = ...] on the column index: a new name goes last. *)
Definition add_col (cols : list string) (c : string) : list string :=
  if bool_decide (c ∈ cols) then cols else (cols ++ [c])%list.

End Further.

(** * Properties *)

(** ** Extractor *)

Section ExtractFacts.
Import Pd Utils Extract.

(** On the UTF-8 path a returned frame has passed both validators. *)
Lemma extract_utf8_validated f df :
  read_utf8 f = ReadFrame df ->
  extract_netflix_data f = Some df ->
  empty df = false /\ validar_dados_netflix df = true.
Proof.
  unfold extract_netflix_data, validate_data, validate_netflix_data, validar_dados.
  intros ->. destruct (file_exists f); simpl; [|discriminate].
  destruct (empty df); simpl; [discriminate|].
  destruct (validar_dados_netflix df); simpl; [auto|discriminate].
Qed.

(** The generic CSV reader checks the frame on both paths. *)
Lemma extract_csv_validated f df :
  extract_csv f = Some df -> empty df = false.
Proof.
  unfold extract_csv, validate_data, validar_dados.
  destruct (file_exists f); simpl; [|discriminate].
  destruct (read_utf8 f) as [d| |]; [| |discriminate].
  - destruct (empty d) eqn:E; [discriminate|]. by intros [= <-].
  - destruct (read_latin1 f) as [d| |]; [|discriminate..].
    destruct (empty d) eqn:E; [discriminate|]. by intros [= <-].
Qed.

(** On the Latin-1 path the frame read is returned as it is. *)
Lemma extract_latin1_unchecked f df :
  file_exists f = true ->
  read_utf8 f = ReadDecodeError ->
  read_latin1 f = ReadFrame df ->
  extract_netflix_data f = Some df.
Proof. unfold extract_netflix_data. by intros -> -> ->. Qed.

(** C2 (the code at the failing inputs): a file that only decodes as
    Latin-1 and holds a table without the required columns, or a header
    line and no rows, is returned as a loaded table, not as [None]. *)
Theorem C2_latin1_fallback_returns_unvalidated :
  extract_netflix_data Sample.latin1_file = Some Sample.foreign_table
  /\ validar_dados_netflix Sample.foreign_table = false
  /\ extract_netflix_data Sample.latin1_header_file = Some Sample.header_only
  /\ empty Sample.header_only = true.
Proof. repeat split; reflexivity. Qed.

End ExtractFacts.

(** ** Orchestrator *)

Section PipelineFacts.
Import Pd Pipeline.
Context {rt : Runtime}.

(** The reporting step tolerates a failing report function: whatever the
    two bodies do, the step returns [True] and the attributes stay. *)
Lemma generate_reports_true w st :
  _generate_reports w st = (st, Ret true).
Proof.
  unfold _generate_reports, Visualizations.create_netflix_dashboard,
    Visualizations.generate_analysis_report.
  by destruct (dashboard_body w _), (report_body w _).
Qed.

(** While [pipeline_end_time] is [None] the run report cannot be built. *)
Lemma create_pipeline_report_raises st :
  pipeline_end_time st = None ->
  _create_pipeline_report st = (st, Raise TypeError).
Proof. unfold _create_pipeline_report. by intros ->. Qed.

(** No step before the run report writes [pipeline_end_time]. *)
Lemma run_steps_not_true w st :
  pipeline_end_time st = None ->
  (run_steps w st).2 <> Ret true.
Proof.
  intros Hend. unfold run_steps.
  unfold _extract_data.
  destruct (raw_data (set_raw_data _ st)) eqn:Hraw; simpl; [|done].
  unfold _transform_data.
  destruct (Transform.transform_netflix_data _) as [out|e]; simpl; [|done].
  destruct out as [tdf|]; simpl; [|done].
  unfold _load_data. destruct (Load.load_to_postgres _ _); simpl; [|done].
  rewrite generate_reports_true.
  rewrite create_pipeline_report_raises; done.
Qed.

(** A new pipeline object never reports success. *)
Lemma run_netflix_pipeline_false w : run_netflix_pipeline w = false.
Proof.
  unfold run_netflix_pipeline, run_full_pipeline.
  pose proof (run_steps_not_true w (set_pipeline_start_time (Some (clock_start w)) init)
                eq_refl) as H.
  destruct (run_steps w _) as [st' [b|e]]; simpl in *; [|done].
  destruct b; [done|done].
Qed.

End PipelineFacts.

(** C1 (the code at the failing input): extraction, transformation and
    loading succeed and building the charts raises; the reporting step
    returns [True], the run report raises [TypeError], and the run as a
    whole returns [False]. *)
Theorem C1_run_with_failing_charts_returns_false :
  let rt := IsoRuntime.runtime in
  let w := Sample.charts_fail in
  let st0 := Pipeline.set_pipeline_start_time (Some 0%Z) Pipeline.init in
  let st1 := (Pipeline._extract_data w st0).1 in
  let st2 := (Pipeline._transform_data w st1).1 in
  let st3 := (Pipeline._load_data w st2).1 in
  (Pipeline._extract_data w st0).2 = Ret true
  /\ (Pipeline._transform_data w st1).2 = Ret true
  /\ (Pipeline._load_data w st2).2 = Ret true
  /\ Visualizations.create_netflix_dashboard
       (Pipeline.dashboard_body w) (Pipeline.transformed_data st3) = Ret None
  /\ (Pipeline._generate_reports w st3).2 = Ret true
  /\ (Pipeline._create_pipeline_report st3).2 = Raise TypeError
  /\ Pipeline.run_netflix_pipeline w = false.
Proof. vm_compute. repeat split; reflexivity. Qed.



(** ** Python strings *)

Module PyStrFacts.
Import PyStr.

Lemma rstrip_idemp s : rstrip (rstrip s) = rstrip s.
Proof.
  induction s as [|a s IH]; simpl; [done|].
  destruct (rstrip s) as [|b t] eqn:E.
  - destruct (is_space a) eqn:Ea; simpl; [done|]. by rewrite Ea.
  - change (rstrip (String a (String b t))) with
      (match rstrip (String b t) with
       | EmptyString => if is_space a then EmptyString else String a EmptyString
       | u => String a u
       end).
    by rewrite IH.
Qed.

Lemma lstrip_head s :
  lstrip s = EmptyString \/ exists a t, lstrip s = String a t /\ is_space a = false.
Proof.
  induction s as [|a s IH]; simpl; [by left|].
  destruct (is_space a) eqn:Ea; [done|]. right. eauto.
Qed.

Lemma lstrip_rstrip_lstrip s : lstrip (rstrip (lstrip s)) = rstrip (lstrip s).
Proof.
  destruct (lstrip_head s) as [->|(a & t & -> & Ha)]; [done|].
  cbn [rstrip]. destruct (rstrip t); rewrite ?Ha; cbn [lstrip]; by rewrite Ha.
Qed.

Lemma strip_idemp s : strip (strip s) = strip s.
Proof. unfold strip. by rewrite lstrip_rstrip_lstrip, rstrip_idemp. Qed.

End PyStrFacts.

(** ** Frames: columns, rows and the two row-dropping operations *)

Section FrameFacts.
Import Pd.

Lemma cell_insert c c' v (r : row) :
  cell (<[c := v]> r) c' = if String.eqb c c' then v else cell r c'.
Proof.
  unfold cell. destruct (String.eqb_spec c c') as [->|Hne].
  - by rewrite lookup_insert_eq.
  - by rewrite lookup_insert_ne.
Qed.

Lemma rows_assign c f df :
  rows (assign c f df) = (fun r => <[c := f r]> r) <$> rows df.
Proof. reflexivity. Qed.

Lemma len_assign c f df : len (assign c f df) = len df.
Proof. unfold len. by rewrite rows_assign, length_fmap. Qed.

Lemma len_when_col c body df :
  (forall d, len (body d) = len d) -> len (when_col c body df) = len df.
Proof. intros H. unfold when_col. by destruct (has_col c df). Qed.

Lemma len_foldl (g : DataFrame -> string -> DataFrame) cols df :
  (forall d c, len (g d c) = len d) -> len (foldl g df cols) = len df.
Proof.
  intros H. revert df. induction cols as [|c cols IH]; intros df; simpl; [done|].
  by rewrite IH, H.
Qed.

Lemma has_col_assign c c' f df :
  has_col c' df = true -> has_col c' (assign c f df) = true.
Proof.
  intros H%bool_decide_eq_true. apply bool_decide_eq_true.
  unfold assign; simpl. destruct (has_col c df); [done|].
  apply elem_of_app. by left.
Qed.

Lemma has_col_assign_same c f df : has_col c (assign c f df) = true.
Proof.
  unfold has_col at 1. unfold assign. simpl. apply bool_decide_eq_true.
  destruct (has_col c df) eqn:E.
  - by apply bool_decide_eq_true in E.
  - apply elem_of_app. right. by apply list_elem_of_singleton.
Qed.

(** *** [keep_first] *)

Lemma elem_of_keep_first (x : row) l : x ∈ keep_first l <-> x ∈ l.
Proof.
  induction l as [|r l IH]; simpl; [done|].
  rewrite !elem_of_cons, list_elem_of_filter, IH.
  destruct (decide (x = r)); tauto.
Qed.

Lemma NoDup_keep_first l : NoDup (keep_first l).
Proof.
  induction l as [|r l IH]; simpl; [constructor|].
  constructor.
  - rewrite list_elem_of_filter. tauto.
  - by apply NoDup_filter.
Qed.

Lemma filter_ne_id (r : row) (l : list row) : r ∉ l -> filter (fun x => x ≠ r) l = l.
Proof.
  induction l as [|y l IH]; [done|].
  intros [Hne Hr]%not_elem_of_cons.
  rewrite filter_cons, decide_True by done. f_equal. by apply IH.
Qed.

Lemma keep_first_NoDup l : NoDup l -> keep_first l = l.
Proof.
  induction 1 as [|r l Hr Hl IH]; simpl; [done|].
  by rewrite IH, filter_ne_id.
Qed.

Lemma length_keep_first l : length (keep_first l) <= length l.
Proof.
  induction l as [|r l IH]; simpl; [done|].
  pose proof (length_filter (fun x => x ≠ r) (keep_first l)). lia.
Qed.

Lemma keep_first_idemp l : keep_first (keep_first l) = keep_first l.
Proof. apply keep_first_NoDup, NoDup_keep_first. Qed.

Lemma length_list_filter {A} (f : A -> bool) l :
  length (List.filter f l) <= length l.
Proof. induction l as [|x l IH]; simpl; [done|]. destruct (f x); simpl; lia. Qed.

(** *** [stable_sort] *)

Lemma insert_sorted_Permutation leb (x : row) l :
  insert_sorted leb x l ≡ₚ x :: l.
Proof.
  induction l as [|y l IH]; simpl; [done|].
  destruct (leb x y); [done|]. rewrite IH. apply Permutation_swap.
Qed.

Lemma stable_sort_Permutation leb l : stable_sort leb l ≡ₚ l.
Proof.
  induction l as [|x l IH]; simpl; [done|].
  by rewrite insert_sorted_Permutation, IH.
Qed.

Lemma length_stable_sort leb l : length (stable_sort leb l) = length l.
Proof. by rewrite stable_sort_Permutation. Qed.


(** *** The order on cells and on keys *)

Lemma value_leb_refl a : value_leb a a = true.
Proof.
  destruct a as [|s|q|b|t]; simpl; try done.
  - apply Is_true_true. apply (reflexivity (R := String.le)).
  - by apply bool_decide_eq_true.
  - by destruct b.
  - by apply Z.leb_le.
Qed.

Lemma value_leb_total a b : value_leb a b = true \/ value_leb b a = true.
Proof.
  destruct a as [|s|q|b'|t], b as [|s2|q2|b2|t2]; simpl; auto.
  - destruct (total String.le s s2) as [H|H]; [left|right]; by apply Is_true_true.
  - destruct (total Qcle q q2); [left|right]; by apply bool_decide_eq_true.
  - destruct b', b2; auto.
  - destruct (Z.le_ge_cases t t2); [left|right]; by apply Z.leb_le.
Qed.

Lemma value_leb_antisym a b :
  value_leb a b = true -> value_leb b a = true -> a = b.
Proof.
  destruct a as [|s|q|b'|t], b as [|s2|q2|b2|t2]; simpl; try done.
  - intros H1%Is_true_true H2%Is_true_true. f_equal.
    by apply (anti_symm String.le).
  - intros H1%bool_decide_eq_true H2%bool_decide_eq_true. f_equal.
    by apply Qcle_antisym.
  - by destruct b', b2.
  - intros H1%Z.leb_le H2%Z.leb_le. f_equal. lia.
Qed.

Lemma value_leb_trans a b c :
  value_leb a b = true -> value_leb b c = true -> value_leb a c = true.
Proof.
  destruct a as [|s|q|b'|t], b as [|s2|q2|b2|t2], c as [|s3|q3|b3|t3];
    simpl; try done.
  - intros H1%Is_true_true H2%Is_true_true. apply Is_true_true.
    by transitivity s2.
  - intros H1%bool_decide_eq_true H2%bool_decide_eq_true.
    apply bool_decide_eq_true. by eapply Qcle_trans.
  - by destruct b', b2, b3.
  - intros H1%Z.leb_le H2%Z.leb_le. apply Z.leb_le. lia.
Qed.

(** The missing cell is the greatest one, and the only greatest one. *)
Lemma value_leb_NaN_r a : value_leb a NaN = true.
Proof. by destruct a. Qed.

Lemma value_leb_NaN_l a : value_leb NaN a = true -> a = NaN.
Proof. by destruct a. Qed.

Lemma same_key_leb by_ r1 r2 : same_key by_ r1 r2 -> key_leb by_ r1 r2 = true.
Proof.
  induction 1 as [|c by_ Hc _ IH]; simpl; [done|]. by rewrite decide_True.
Qed.

Lemma same_key_sym by_ r1 r2 : same_key by_ r1 r2 -> same_key by_ r2 r1.
Proof. intros H. eapply Forall_impl; [exact H|]. by intros c ->. Qed.

Lemma same_key_trans by_ r1 r2 r3 :
  same_key by_ r1 r2 -> same_key by_ r2 r3 -> same_key by_ r1 r3.
Proof.
  unfold same_key. rewrite !Forall_forall. intros H1 H2 c Hc.
  by rewrite H1, H2.
Qed.

Lemma key_leb_total by_ r1 r2 :
  key_leb by_ r1 r2 = true \/ key_leb by_ r2 r1 = true.
Proof.
  induction by_ as [|c by_ IH]; simpl; [by left|].
  destruct (decide (cell r1 c = cell r2 c)) as [E|E].
  - by rewrite decide_True.
  - rewrite decide_False by done. apply value_leb_total.
Qed.

Lemma key_leb_trans by_ r1 r2 r3 :
  key_leb by_ r1 r2 = true -> key_leb by_ r2 r3 = true ->
  key_leb by_ r1 r3 = true.
Proof.
  induction by_ as [|c by_ IH]; simpl; [done|].
  destruct (decide (cell r1 c = cell r2 c)) as [E12|E12],
           (decide (cell r2 c = cell r3 c)) as [E23|E23].
  - rewrite decide_True by congruence. apply IH.
  - rewrite decide_False by congruence. rewrite E12. auto.
  - rewrite decide_False by congruence. rewrite <- E23. auto.
  - intros H12 H23. destruct (decide (cell r1 c = cell r3 c)) as [E13|E13].
    + rewrite <- E13 in H23. destruct E12. by apply value_leb_antisym.
    + by eapply value_leb_trans.
Qed.

Lemma key_leb_antisym by_ r1 r2 :
  key_leb by_ r1 r2 = true -> key_leb by_ r2 r1 = true -> same_key by_ r1 r2.
Proof.
  induction by_ as [|c by_ IH]; simpl; [by constructor|].
  destruct (decide (cell r1 c = cell r2 c)) as [E|E].
  - rewrite decide_True by done. intros H1 H2. constructor; [done|]. by apply IH.
  - rewrite decide_False by done. intros H1 H2. destruct E.
    by apply value_leb_antisym.
Qed.

(** *** [stable_sort] sorts, and keeps the order of rows with equal keys *)

Global Instance key_le_trans by_ : Transitive (key_le by_).
Proof. intros r1 r2 r3. apply key_leb_trans. Qed.

Lemma insert_sorted_Sorted by_ x l :
  Sorted (key_le by_) l -> Sorted (key_le by_) (insert_sorted (key_leb by_) x l).
Proof.
  induction 1 as [|y l Hl IH Hhd]; simpl.
  - repeat constructor.
  - destruct (key_leb by_ x y) eqn:E.
    + constructor; [by constructor|]. by constructor.
    + constructor; [done|].
      assert (key_le by_ y x) as Hyx.
      { destruct (key_leb_total by_ x y) as [H|H]; [congruence|done]. }
      destruct Hhd as [|z l' Hyz]; simpl.
      * by constructor.
      * destruct (key_leb by_ x z); by constructor.
Qed.

Lemma stable_sort_Sorted by_ l :
  Sorted (key_le by_) (stable_sort (key_leb by_) l).
Proof.
  induction l as [|x l IH]; simpl; [constructor|].
  by apply insert_sorted_Sorted.
Qed.

Lemma stable_sort_StronglySorted by_ l :
  StronglySorted (key_le by_) (stable_sort (key_leb by_) l).
Proof. apply Sorted_StronglySorted; [apply _|]. apply stable_sort_Sorted. Qed.

Lemma filter_insert_sorted by_ (k x : row) l :
  filter (same_key by_ k) (insert_sorted (key_leb by_) x l)
  = filter (same_key by_ k) (x :: l).
Proof.
  induction l as [|y l IH]; simpl; [done|].
  destruct (key_leb by_ x y) eqn:E; [done|].
  rewrite filter_cons, IH, !filter_cons.
  destruct (decide (same_key by_ k y)) as [Hy|Hy],
           (decide (same_key by_ k x)) as [Hx|Hx]; try done.
  assert (key_leb by_ x y = true); [|congruence].
  apply same_key_leb. eapply same_key_trans; [|done]. by apply same_key_sym.
Qed.

Lemma stable_sort_stable by_ (k : row) l :
  filter (same_key by_ k) (stable_sort (key_leb by_) l)
  = filter (same_key by_ k) l.
Proof.
  induction l as [|x l IH]; simpl; [done|].
  by rewrite filter_insert_sorted, !filter_cons, IH.
Qed.

Lemma StronglySorted_lookup_lt {A} (R : relation A) (l : list A) i j x y :
  StronglySorted R l -> i < j -> l !! i = Some x -> l !! j = Some y -> R x y.
Proof.
  intros Hl. revert i j. induction Hl as [|a l Hl IH Ha]; intros i j Hij Hi Hj.
  - done.
  - destruct j as [|j]; [lia|]. destruct i as [|i]; simpl in *.
    + injection Hi as ->. rewrite Forall_forall in Ha. apply Ha.
      by eapply list_elem_of_lookup_2.
    + apply (IH i j); [lia|done..].
Qed.

(** *** Passes keep the columns they find and the number of rows *)

Definition keeps_columns (g : DataFrame -> DataFrame) : Prop :=
  forall c df, has_col c df = true -> has_col c (g df) = true.

Definition keeps_len (g : DataFrame -> DataFrame) : Prop :=
  forall df, len (g df) = len df.

Lemma keeps_columns_assign c f : keeps_columns (assign c f).
Proof. intros c' df. apply has_col_assign. Qed.

Lemma keeps_columns_when_col c body :
  keeps_columns body -> keeps_columns (when_col c body).
Proof. intros H c' df Hc. unfold when_col. destruct (has_col c df); auto. Qed.

Lemma keeps_columns_compose g h :
  keeps_columns g -> keeps_columns h -> keeps_columns (fun df => h (g df)).
Proof. intros Hg Hh c df Hc. by apply Hh, Hg. Qed.

Lemma keeps_columns_foldl (g : DataFrame -> string -> DataFrame) cols :
  (forall col, keeps_columns (fun df => g df col)) ->
  keeps_columns (fun df => foldl g df cols).
Proof.
  intros H. induction cols as [|col cols IH]; intros c df Hc; simpl; [done|].
  apply IH. by apply (H col).
Qed.

Lemma keeps_len_assign c f : keeps_len (assign c f).
Proof. intros df. apply len_assign. Qed.

Lemma keeps_len_when_col c body : keeps_len body -> keeps_len (when_col c body).
Proof. intros H df. by apply len_when_col. Qed.

Lemma keeps_len_compose g h :
  keeps_len g -> keeps_len h -> keeps_len (fun df => h (g df)).
Proof. intros Hg Hh df. by rewrite Hh, Hg. Qed.

Lemma keeps_len_foldl (g : DataFrame -> string -> DataFrame) cols :
  (forall col, keeps_len (fun df => g df col)) ->
  keeps_len (fun df => foldl g df cols).
Proof. intros H df. apply len_foldl. intros d c. apply (H c). Qed.

End FrameFacts.

(** Solves [keeps_columns g] and [keeps_len g] for a pass [g] built from
    assignments, column guards and loops over column lists. *)
Ltac keeps_tac :=
  repeat first
    [ apply keeps_columns_assign
    | apply keeps_len_assign
    | apply keeps_columns_when_col
    | apply keeps_len_when_col
    | apply keeps_columns_foldl; intros ?
    | apply keeps_len_foldl; intros ?
    | apply (keeps_columns_compose _ _)
    | apply (keeps_len_compose _ _) ].

(** ** Row invariants through a pass

    [row_triple K P g P']: on a frame that has the columns [K] and whose
    rows all satisfy [P], the rows of [g df] all satisfy [P']. *)

Section RowTriples.
Import Pd.

Definition has_cols (K : list string) (df : DataFrame) : Prop :=
  forall c, c ∈ K -> has_col c df = true.

Definition row_triple (K : list string) (P : row -> Prop)
    (g : DataFrame -> DataFrame) (P' : row -> Prop) : Prop :=
  forall df, has_cols K df -> Forall P (rows df) -> Forall P' (rows (g df)).

Lemma has_cols_keeps K g df :
  keeps_columns g -> has_cols K df -> has_cols K (g df).
Proof. intros Hg HK c Hc. by apply Hg, HK. Qed.

Lemma has_col_when_col c0 c body df :
  has_col c0 df = true -> has_col c (body df) = true ->
  has_col c (when_col c0 body df) = true.
Proof. intros H0 H. unfold when_col. by rewrite H0. Qed.

Lemma has_col_when_keeps c0 c body df :
  keeps_columns body -> has_col c df = true ->
  has_col c (when_col c0 body df) = true.
Proof. intros Hb H. by apply keeps_columns_when_col. Qed.

Lemma has_cols_cons c K df :
  has_col c df = true -> has_cols K df -> has_cols (c :: K) df.
Proof. intros Hc HK c' [->|H]%elem_of_cons; auto. Qed.

Lemma has_cols_nil df : has_cols [] df.
Proof. intros c H. by apply elem_of_nil in H. Qed.

Lemma triple_assign K c f (Q P' : row -> Prop) :
  (forall r, Q r -> P' (<[c := f r]> r)) ->
  row_triple K Q (assign c f) P'.
Proof.
  intros H df _ HQ. rewrite rows_assign. apply Forall_fmap.
  eapply Forall_impl; [exact HQ|]. exact H.
Qed.

Lemma triple_seq K P Q R g h :
  row_triple K Q h R -> keeps_columns g -> row_triple K P g Q ->
  row_triple K P (fun df => h (g df)) R.
Proof.
  intros Hh Hk Hg df HK HP. apply Hh; [by apply has_cols_keeps|]. by apply Hg.
Qed.

Lemma triple_when_in K c body P P' :
  c ∈ K -> row_triple K P body P' -> row_triple K P (when_col c body) P'.
Proof.
  intros Hc Hb df HK HP. unfold when_col. rewrite (HK c Hc). by apply Hb.
Qed.

Lemma triple_when K c body (P P' : row -> Prop) :
  row_triple K P body P' ->
  row_triple K (fun r => P r /\ P' r) (when_col c body) P'.
Proof.
  intros Hb df HK HP. unfold when_col. destruct (has_col c df).
  - apply Hb; [done|]. eapply Forall_impl; [exact HP|]. by intros r [? _].
  - eapply Forall_impl; [exact HP|]. by intros r [_ ?].
Qed.

Lemma triple_conseq K (P P1 : row -> Prop) g P' :
  (forall r, P r -> P1 r) -> row_triple K P1 g P' -> row_triple K P g P'.
Proof.
  intros HPP Hg df HK HP. apply Hg; [done|]. eapply Forall_impl; [exact HP|done].
Qed.

Lemma triple_id K (P : row -> Prop) : row_triple K P (fun df => df) P.
Proof. by intros df _ HP. Qed.

End RowTriples.

(** ** Transformer: what every pass keeps *)

Section TransformShape.
Import Pd Transform.
Context {rt : Runtime}.

Lemma keeps_columns_transform_dates : keeps_columns transform_dates.
Proof.
  unfold transform_dates.
  apply (keeps_columns_compose (when_col "date_added" _) (when_col "release_year" _));
    keeps_tac.
Qed.

End TransformShape.

(** One backward step through an assignment: the precondition is the
    postcondition read on the updated row, with the reads of the updated
    row resolved. *)
Ltac resolve_cells :=
  rewrite ?cell_insert;
  cbn [String.eqb Ascii.eqb Bool.eqb andb String.append].

(** Computes the column names built with [+:+]. *)
Ltac norm_strings :=
  repeat match goal with
  | |- context [String.append ?a ?b] =>
      let v := eval vm_compute in (String.append a b) in
      change (String.append a b) with v
  end.

Ltac in_cols := by apply (bool_decide_unpack _).

Ltac wp_assign unf :=
  apply triple_assign; intros ?; unf; resolve_cells; exact (fun H => H).

Ltac wp_step unf :=
  lazymatch goal with
  | |- row_triple _ _ (fun df => df) _ => apply triple_id
  | |- row_triple _ _ (Pd.assign _ _) _ => wp_assign unf
  | |- row_triple _ _ (fun df => Pd.assign ?c ?f df) _ => wp_assign unf
  | |- row_triple _ _ (fun df => Pd.assign ?c ?f (@?g df)) _ =>
      eapply (triple_seq _ _ _ _ g (Pd.assign c f));
      [ wp_assign unf | keeps_tac | ]
  | |- row_triple _ _ (Pd.when_col _ _) _ =>
      apply triple_when_in; [in_cols|]
  | |- row_triple _ _ (fun df => Pd.when_col ?c ?body df) _ =>
      apply triple_when_in; [in_cols|]
  | |- row_triple _ _ (fun df => Pd.when_col ?c ?body (@?g df)) _ =>
      eapply (triple_seq _ _ _ _ g (Pd.when_col c body));
      [ apply triple_when_in; [in_cols|] | keeps_tac | ]
  end.

(** Finds a column in a frame built from assignments and guards over a
    frame [df] whose columns [HK : has_cols K df] lists: the column is
    written by an assignment, or was there before. *)
Ltac has_col_tac HK :=
  cbv beta;
  lazymatch goal with
  | |- Pd.has_col ?c (Pd.assign ?c _ _) = true => apply has_col_assign_same
  | |- Pd.has_col ?c (Pd.assign _ _ _) = true =>
      apply has_col_assign; has_col_tac HK
  | |- Pd.has_col ?c (Pd.when_col ?c0 ?body ?d) = true =>
      lazymatch body with
      | context [Pd.assign c] =>
          apply has_col_when_col; [has_col_tac HK | has_col_tac HK]
      | _ => apply has_col_when_keeps; [keeps_tac | has_col_tac HK]
      end
  | |- Pd.has_col ?c ?d = true => apply HK; in_cols
  end.

Ltac has_cols_tac HK :=
  repeat (apply has_cols_cons; [has_col_tac HK|]); apply has_cols_nil.

(** Closes the implication from the invariant before a pass to the
    precondition computed backwards from the invariant after it. *)
Ltac rows_done :=
  unfold Derived.derived_ok, Derived.features_ok, Derived.critical_ok,
    Derived.release_year_ok, Derived.duration_ok, Derived.duration_features_ok,
    Derived.counts_ok, Derived.rating_ok, Derived.country_ok, Derived.genre_ok,
    Derived.item_count in *;
  repeat split; first [reflexivity | tauto].

(** ** Transformer: the derived cells of every row *)

Section TransformRows.
Import Pd Transform Derived.
Context {rt : Runtime}.

Lemma clamp_in_range v :
  year_in_range
    (if lt_scalar (to_numeric v) 1900 || gt_scalar (to_numeric v) (current_year + 2)
     then NaN else to_numeric v).
Proof.
  assert (to_numeric v = NaN \/ exists q, to_numeric v = Num q) as [->|[q ->]].
  { destruct v as [|s|q|b|t]; simpl; eauto.
    destruct (parse_numeric s); eauto. }
  - done.
  - simpl. case_bool_decide as H1; simpl; [done|].
    case_bool_decide as H2; simpl; [done|].
    split; by apply Qcle_ngt.
Qed.

Lemma transform_dates_rows :
  row_triple Utils.colunas_obrigatorias critical_ok transform_dates
    (fun r => critical_ok r /\ release_year_ok r).
Proof.
  unfold transform_dates. eapply triple_conseq; cycle 1.
  - repeat wp_step ltac:(unfold critical_ok, release_year_ok).
  - intros r H. cbv beta. split; [exact H|]. split; [apply clamp_in_range|done].
Qed.

Lemma transform_dates_columns df :
  has_cols Utils.colunas_obrigatorias df ->
  has_cols columns_after_dates (transform_dates df).
Proof.
  intros HK. unfold transform_dates, columns_after_dates.
  cbn [app Utils.colunas_obrigatorias]. has_cols_tac HK.
Qed.

Lemma normalised_clean v :
  normalised (replace_nan ["nan"; "None"; ""] (str_strip (Str (astype_str v)))).
Proof.
  simpl. case_bool_decide as H; [done|]. simpl. split.
  - apply PyStrFacts.strip_idemp.
  - intros E. apply H. rewrite E. set_solver.
Qed.

Lemma clean_text_columns_rows :
  row_triple columns_after_dates
    (fun r => critical_ok r /\ release_year_ok r)
    clean_text_columns
    (fun r => critical_ok r /\ release_year_ok r /\ duration_ok r).
Proof.
  unfold clean_text_columns. cbn [foldl text_columns]. unfold clean_text_column.
  eapply triple_conseq; cycle 1.
  - repeat wp_step ltac:(unfold critical_ok, release_year_ok, duration_ok).
  - intros r [H1 H2]. cbv beta. split; [exact H1|]. split; [exact H2|].
    apply normalised_clean.
Qed.

Lemma clean_text_columns_columns df :
  has_cols columns_after_dates df ->
  has_cols columns_after_dates (clean_text_columns df).
Proof.
  apply has_cols_keeps. unfold clean_text_columns.
  apply (keeps_columns_compose (fun df => foldl clean_text_column df text_columns)
           (when_col "duration" _)); unfold clean_text_column; keeps_tac.
Qed.

Lemma content_age_ret df :
  has_col "release_year" df = true ->
  has_col "date_added" df = true ->
  has_col "date_added_year" df = true ->
  content_age df
  = Ret (assign "content_age_when_added"
           (fun r => sub (cell r "date_added_year") (cell r "release_year")) df).
Proof. unfold content_age. by intros -> -> ->. Qed.

(** Names the function [g] with [t = g df] and reduces a goal about the
    rows of [t] to a triple for [g]. *)
Ltac by_triple df HK HP K Pre :=
  lazymatch goal with
  | |- Forall ?P' (Pd.rows ?t) =>
      let g := eval pattern df in t in
      lazymatch g with
      | ?g0 _ => cut (row_triple K Pre g0 P'); [intros Ht; exact (Ht df HK HP)|]
      end
  end.

Lemma engineer_features_spec df :
  has_cols columns_after_dates df ->
  Forall (fun r => critical_ok r /\ release_year_ok r /\ duration_ok r) (rows df) ->
  exists df',
    engineer_features df = Ret df'
    /\ has_cols columns_after_features df'
    /\ Forall features_ok (rows df').
Proof.
  intros HK HP. unfold engineer_features.
  cbn [foldl list_columns]. unfold count_items. norm_strings.
  rewrite content_age_ret; [|has_col_tac HK..].
  unfold mbind, result_bind. eexists. split; [reflexivity|]. split.
  - unfold columns_after_features, columns_after_dates.
    cbn [app Utils.colunas_obrigatorias]. has_cols_tac HK.
  - by_triple df HK HP columns_after_dates
      (fun r => critical_ok r /\ release_year_ok r /\ duration_ok r).
    eapply triple_conseq; cycle 1.
    + repeat wp_step ltac:(unfold features_ok, critical_ok, release_year_ok,
        duration_ok, duration_features_ok, counts_ok, rating_ok).
    + intros r H. cbv beta. rows_done.
Qed.

Lemma process_categorical_data_rows :
  row_triple columns_after_features features_ok process_categorical_data derived_ok.
Proof.
  unfold process_categorical_data. cbn [foldl categorical_columns].
  unfold astype_category. eapply triple_conseq; cycle 1.
  - repeat wp_step ltac:(unfold derived_ok, critical_ok, release_year_ok,
      duration_ok, duration_features_ok, counts_ok, rating_ok, country_ok, genre_ok).
  - intros r H. cbv beta. rows_done.
Qed.

(** *** Shape of the output: row counts and duplicates *)

Lemma keeps_len_transform_dates : keeps_len transform_dates.
Proof.
  unfold transform_dates.
  apply (keeps_len_compose (when_col "date_added" _) (when_col "release_year" _));
    keeps_tac.
Qed.

Lemma keeps_len_clean_text_columns : keeps_len clean_text_columns.
Proof.
  unfold clean_text_columns.
  apply (keeps_len_compose (fun df => foldl clean_text_column df text_columns)
           (when_col "duration" _)); unfold clean_text_column; keeps_tac.
Qed.

Lemma keeps_len_process_categorical_data : keeps_len process_categorical_data.
Proof.
  unfold process_categorical_data. cbn [foldl categorical_columns].
  unfold astype_category. intros df.
  rewrite !len_when_col; [done|intros; by rewrite ?len_assign..].
Qed.

Lemma content_age_len df df' : content_age df = Ret df' -> len df' = len df.
Proof.
  unfold content_age.
  destruct (has_col "release_year" df && has_col "date_added" df).
  - destruct (has_col "date_added_year" df); [|done].
    intros [= <-]. apply len_assign.
  - by intros [= <-].
Qed.

Lemma engineer_features_len df df' :
  engineer_features df = Ret df' -> len df' = len df.
Proof.
  unfold engineer_features. cbn [foldl list_columns]. unfold count_items.
  destruct (content_age _) as [mid|e] eqn:E; [|done].
  unfold mbind, result_bind. intros [= <-].
  apply content_age_len in E.
  rewrite !len_when_col; [|intros; by rewrite ?len_assign..].
  rewrite E.
  rewrite !len_when_col; [done|intros; by rewrite ?len_assign..].
Qed.

Lemma clean_basic_data_rows df df' :
  clean_basic_data df = Ret df' ->
  rows df' = List.filter (complete_on critical_columns) (keep_first (rows df)).
Proof.
  unfold clean_basic_data, dropna.
  destruct (forallb _ _); [|done]. by intros [= <-].
Qed.

Lemma clean_basic_data_columns df df' :
  clean_basic_data df = Ret df' -> columns df' = columns df.
Proof.
  unfold clean_basic_data, dropna.
  destruct (forallb _ _); [|done]. by intros [= <-].
Qed.

Lemma clean_basic_data_ret df :
  has_cols Utils.colunas_obrigatorias df -> exists df', clean_basic_data df = Ret df'.
Proof.
  intros HK. unfold clean_basic_data, dropna.
  replace (forallb _ critical_columns) with true; [eauto|].
  symmetry. apply forallb_forall. intros c Hc.
  unfold has_col, drop_duplicates. simpl. apply HK.
  apply list_elem_of_In in Hc. revert Hc. unfold critical_columns.
  rewrite !elem_of_cons, elem_of_nil. intros [->|[->|[->|[]]]]; in_cols.
Qed.

Lemma clean_basic_data_len df df' :
  clean_basic_data df = Ret df' -> len df' <= len df.
Proof.
  intros H%clean_basic_data_rows. unfold len. rewrite H.
  pose proof (length_list_filter (complete_on critical_columns) (keep_first (rows df))).
  pose proof (length_keep_first (rows df)). lia.
Qed.

Lemma final_cleanup_rows df :
  rows (final_cleanup df) ≡ₚ keep_first (rows df).
Proof.
  unfold final_cleanup. destruct (_ ++ _)%list; simpl; [done|].
  apply stable_sort_Permutation.
Qed.

Lemma final_cleanup_rows_sorted df :
  has_col "date_added" df = true -> has_col "show_id" df = true ->
  rows (final_cleanup df)
  = stable_sort (key_leb ["date_added"; "show_id"]) (keep_first (rows df)).
Proof.
  unfold final_cleanup.
  change (has_col "date_added" (drop_duplicates df)) with (has_col "date_added" df).
  change (has_col "show_id" (drop_duplicates df)) with (has_col "show_id" df).
  by intros -> ->.
Qed.

Lemma final_cleanup_columns df : columns (final_cleanup df) = columns df.
Proof. unfold final_cleanup. by destruct (_ ++ _)%list. Qed.

Lemma final_cleanup_len df : len (final_cleanup df) <= len df.
Proof.
  unfold len. rewrite final_cleanup_rows. apply length_keep_first.
Qed.

Lemma final_cleanup_NoDup df : NoDup (rows (final_cleanup df)).
Proof. rewrite final_cleanup_rows. apply NoDup_keep_first. Qed.

Lemma final_cleanup_Forall (P : row -> Prop) df :
  Forall P (rows df) -> Forall P (rows (final_cleanup df)).
Proof.
  rewrite final_cleanup_rows, !Forall_forall. intros H r Hr.
  by apply H, elem_of_keep_first.
Qed.

Lemma Ret_Some_inj {A} (a b : A) : Ret (Some a) = Ret (Some b) -> a = b.
Proof. by intros [=]. Qed.

Lemma bind_inv {A B} (m : result A) (k : A -> result B) b :
  (m ≫= k) = Ret b -> exists a, m = Ret a /\ k a = Ret b.
Proof. destruct m as [a|e]; [eauto|intros [=]]. Qed.

Lemma bind_Ret {A B} (a : A) (k : A -> result B) : (Ret a ≫= k) = k a.
Proof. reflexivity. Qed.

(** The transformer returns a frame exactly when the frame is not empty
    and the two passes that can raise return. *)
Lemma transform_inv df T :
  transform_netflix_data (Some df) = Ret (Some T) ->
  exists d1 d4,
    empty df = false
    /\ clean_basic_data df = Ret d1
    /\ engineer_features (clean_text_columns (transform_dates d1)) = Ret d4
    /\ T = final_cleanup (process_categorical_data d4).
Proof.
  unfold transform_netflix_data.
  destruct (empty df); [intros [=]|].
  intros (d1 & E1 & H)%bind_inv.
  apply bind_inv in H as (d4 & E4 & H).
  apply Ret_Some_inj in H.
  by exists d1, d4.
Qed.

Lemma transform_intro df d1 d4 :
  empty df = false ->
  clean_basic_data df = Ret d1 ->
  engineer_features (clean_text_columns (transform_dates d1)) = Ret d4 ->
  transform_netflix_data (Some df)
  = Ret (Some (final_cleanup (process_categorical_data d4))).
Proof.
  intros He E1 E4. unfold transform_netflix_data.
  rewrite He, E1, bind_Ret, E4, bind_Ret. reflexivity.
Qed.

(** Whenever the transformer returns a frame, it has no more rows than
    the input and no two equal rows. *)
Lemma transform_output_shape df T :
  transform_netflix_data (Some df) = Ret (Some T) ->
  len T <= len df /\ NoDup (rows T).
Proof.
  intros (d1 & d4 & _ & E1 & E4 & ->)%transform_inv. split.
  - etransitivity; [apply final_cleanup_len|].
    rewrite keeps_len_process_categorical_data.
    rewrite (engineer_features_len _ _ E4).
    rewrite keeps_len_clean_text_columns, keeps_len_transform_dates.
    by apply clean_basic_data_len.
  - apply final_cleanup_NoDup.
Qed.

Lemma has_cols_required df :
  Utils.validar_dados_netflix df = true <-> has_cols Utils.colunas_obrigatorias df.
Proof.
  unfold Utils.validar_dados_netflix, Utils.colunas_ausentes, has_cols.
  split.
  - intros H c Hc. destruct (has_col c df) eqn:E; [done|].
    assert (In c (List.filter (fun col => negb (has_col col df)) Utils.colunas_obrigatorias)) as Hin.
    { apply filter_In. split; [by apply list_elem_of_In|by rewrite E]. }
    destruct (List.filter _ _); [done|discriminate].
  - intros H. destruct (List.filter _ _) as [|c l] eqn:E; [done|].
    assert (In c (c :: l)) as Hin by (by left). rewrite <- E in Hin.
    apply filter_In in Hin as [Hc Hn]. apply list_elem_of_In in Hc.
    rewrite (H c Hc) in Hn. done.
Qed.

(** On a frame that is not empty and has the required columns the
    transformer returns a frame, and every row of it carries the derived
    cells. *)
Lemma transform_output df :
  empty df = false ->
  Utils.validar_dados_netflix df = true ->
  exists T,
    transform_netflix_data (Some df) = Ret (Some T)
    /\ has_cols columns_after_features T
    /\ Forall derived_ok (rows T).
Proof.
  intros Hne HK%has_cols_required.
  destruct (clean_basic_data_ret df HK) as [d1 E1].
  assert (has_cols Utils.colunas_obrigatorias d1) as HK1.
  { intros c Hc. unfold has_col. rewrite (clean_basic_data_columns _ _ E1).
    by apply HK. }
  assert (Forall critical_ok (rows d1)) as HP1.
  { rewrite (clean_basic_data_rows _ _ E1). apply Forall_forall.
    intros r [_ Hr]%list_elem_of_In%filter_In. revert Hr.
    unfold complete_on, critical_columns, critical_ok. cbn [forallb].
    destruct (isna (cell r "show_id")), (isna (cell r "type")),
      (isna (cell r "title")); simpl; done. }
  pose proof (transform_dates_columns _ HK1) as HK2.
  pose proof (transform_dates_rows _ HK1 HP1) as HP2.
  pose proof (clean_text_columns_columns _ HK2) as HK3.
  pose proof (clean_text_columns_rows _ HK2 HP2) as HP3.
  destruct (engineer_features_spec _ HK3 HP3) as (d4 & E4 & HK4 & HP4).
  eexists. split; [by apply (transform_intro df d1 d4)|]. split.
  - intros c Hc. unfold has_col. rewrite final_cleanup_columns.
    revert c Hc. apply has_cols_keeps; [|done].
    unfold process_categorical_data. cbn [foldl categorical_columns].
    unfold astype_category. keeps_tac.
  - apply final_cleanup_Forall. by apply process_categorical_data_rows.
Qed.

End TransformRows.

(** ** Rows and the rows they come from *)

(** The triples of above, between the rows of a frame and the rows they
    come from: [rel_triple K R g R'] says that when the rows of [df] are
    related by [R], one by one, to the rows of a list, the rows of
    [g df] are related to them by [R']. *)

Section RowRelations.
Import Pd.

Definition rel_triple (K : list string) (R : row -> row -> Prop)
    (g : DataFrame -> DataFrame) (R' : row -> row -> Prop) : Prop :=
  forall l0 df, has_cols K df -> Forall2 R l0 (rows df) -> Forall2 R' l0 (rows (g df)).

Lemma rel_assign K c f (Q R' : row -> row -> Prop) :
  (forall r0 r, Q r0 r -> R' r0 (<[c := f r]> r)) ->
  rel_triple K Q (assign c f) R'.
Proof.
  intros H l0 df _ HQ. rewrite rows_assign. apply Forall2_fmap_r.
  eapply Forall2_impl; [exact HQ|]. exact H.
Qed.

Lemma rel_seq K P Q R g h :
  rel_triple K Q h R -> keeps_columns g -> rel_triple K P g Q ->
  rel_triple K P (fun df => h (g df)) R.
Proof.
  intros Hh Hk Hg l0 df HK HP. apply Hh; [by apply has_cols_keeps|]. by apply Hg.
Qed.

Lemma rel_when_in K c body P P' :
  c ∈ K -> rel_triple K P body P' -> rel_triple K P (when_col c body) P'.
Proof.
  intros Hc Hb l0 df HK HP. unfold when_col. rewrite (HK c Hc). by apply Hb.
Qed.

Lemma rel_conseq K (P P1 : row -> row -> Prop) g P' :
  (forall r0 r, P r0 r -> P1 r0 r) -> rel_triple K P1 g P' -> rel_triple K P g P'.
Proof.
  intros HPP Hg l0 df HK HP. apply Hg; [done|].
  eapply Forall2_impl; [exact HP|done].
Qed.

Lemma rel_id K (P : row -> row -> Prop) : rel_triple K P (fun df => df) P.
Proof. by intros l0 df _ HP. Qed.

(** From the rows of a frame to the rows of the frame a pass makes of it. *)
Lemma rel_rows K g (R' : row -> row -> Prop) df :
  rel_triple K eq g R' -> has_cols K df -> Forall2 R' (rows df) (rows (g df)).
Proof.
  intros H HK. apply H; [done|]. apply Forall_Forall2_diag. by apply Forall_true.
Qed.


End RowRelations.

Ltac rel_assign_tac unf :=
  apply rel_assign; intros ? ?; unf; resolve_cells; exact (fun H => H).

Ltac rel_step unf :=
  lazymatch goal with
  | |- rel_triple _ _ (fun df => df) _ => apply rel_id
  | |- rel_triple _ _ (Pd.assign _ _) _ => rel_assign_tac unf
  | |- rel_triple _ _ (fun df => Pd.assign ?c ?f df) _ => rel_assign_tac unf
  | |- rel_triple _ _ (fun df => Pd.assign ?c ?f (@?g df)) _ =>
      eapply (rel_seq _ _ _ _ g (Pd.assign c f));
      [ rel_assign_tac unf | keeps_tac | ]
  | |- rel_triple _ _ (Pd.when_col _ _) _ =>
      apply rel_when_in; [in_cols|]
  | |- rel_triple _ _ (fun df => Pd.when_col ?c ?body df) _ =>
      apply rel_when_in; [in_cols|]
  | |- rel_triple _ _ (fun df => Pd.when_col ?c ?body (@?g df)) _ =>
      eapply (rel_seq _ _ _ _ g (Pd.when_col c body));
      [ apply rel_when_in; [in_cols|] | keeps_tac | ]
  end.

(** ** The claims about the rows of the output *)

Section Claims.
Import Pd Transform Derived.
Context {rt : Runtime}.

(** C3: on every frame that is not empty and has the required columns
    the transformer returns a frame, and that frame has at most as many
    rows as the input.  Rows only go in [clean_basic_data] (duplicates,
    rows without identifier, title or type) and in [final_cleanup]
    (duplicates); every other pass keeps the number of rows. *)
Theorem C3_output_rows_at_most_input df :
  empty df = false ->
  Utils.validar_dados_netflix df = true ->
  exists T,
    transform_netflix_data (Some df) = Ret (Some T)
    /\ len T <= len df.
Proof.
  intros Hne HK. destruct (transform_output df Hne HK) as (T & HT & _).
  exists T. split; [done|]. by apply transform_output_shape.
Qed.

Lemma rating_lookup v :
  fillna "Other" (map_dict rating_table v)
  = Str (match v with
         | Str code =>
             match List.find (fun kv => String.eqb kv.1 code) rating_table with
             | Some kv => kv.2
             | None => "Other"
             end
         | _ => "Other"
         end).
Proof.
  destruct v as [|s|q|b|t]; try done. unfold map_dict.
  by destruct (List.find _ _).
Qed.

Lemma find_rating_None code :
  code ∉ rating_table.*1 ->
  List.find (fun kv => String.eqb kv.1 code) rating_table = None.
Proof.
  intros H. destruct (List.find _ _) as [kv|] eqn:E; [|done].
  apply find_some in E as [Hin Heq]. apply String.eqb_eq in Heq.
  destruct H. rewrite <- Heq. apply list_elem_of_fmap. exists kv.
  split; [done|]. by apply list_elem_of_In.
Qed.

(** C5: in every row of the transformer's output the rating category is
    the fixed lookup of the row's rating with default: "PG-13" gives
    "Teen", "TV-MA" gives "Adult", every code of the table gives its
    category, and a code that is not in the table (such as "XYZ") or a
    missing rating gives "Other". *)
Theorem C5_rating_category df :
  empty df = false ->
  Utils.validar_dados_netflix df = true ->
  exists T,
    transform_netflix_data (Some df) = Ret (Some T)
    /\ Forall (fun r =>
         (cell r "rating" = Str "PG-13" -> cell r "rating_category" = Str "Teen")
         /\ (cell r "rating" = Str "TV-MA" -> cell r "rating_category" = Str "Adult")
         /\ (cell r "rating" = Str "XYZ" -> cell r "rating_category" = Str "Other")
         /\ (forall code category,
               cell r "rating" = Str code -> (code, category) ∈ rating_table ->
               cell r "rating_category" = Str category)
         /\ (forall code,
               cell r "rating" = Str code -> code ∉ rating_table.*1 ->
               cell r "rating_category" = Str "Other")
         /\ (cell r "rating" = NaN -> cell r "rating_category" = Str "Other"))
       (rows T).
Proof.
  intros Hne HK. destruct (transform_output df Hne HK) as (T & HT & _ & Hrows).
  exists T. split; [done|]. eapply Forall_impl; [exact Hrows|].
  intros r (_ & _ & _ & _ & _ & Hr & _). unfold rating_ok in Hr.
  rewrite Hr. repeat split.
  - by intros ->.
  - by intros ->.
  - by intros ->.
  - intros code category -> Hin. rewrite rating_lookup. f_equal.
    revert Hin. unfold rating_table. rewrite !elem_of_cons, elem_of_nil.
    intros H. repeat (destruct H as [[= -> ->]|H]; [reflexivity|]). done.
  - intros code -> Hc. rewrite rating_lookup. by rewrite find_rating_None.
  - by intros ->.
Qed.

(** C10: in every row of the transformer's output [is_movie] and
    [is_tv_show] are booleans that are never both true: [is_movie] holds
    exactly when the duration unit is "min", [is_tv_show] exactly when it
    is "Season" or "Seasons", and a missing or any other unit leaves both
    false. *)
Theorem C10_movie_and_series_flags_exclusive df :
  empty df = false ->
  Utils.validar_dados_netflix df = true ->
  exists T,
    transform_netflix_data (Some df) = Ret (Some T)
    /\ Forall (fun r =>
         exists is_movie is_tv_show : bool,
           cell r "is_movie" = Bool is_movie
           /\ cell r "is_tv_show" = Bool is_tv_show
           /\ (is_movie = true <-> cell r "duration_unit" = Str "min")
           /\ (is_tv_show = true <->
               cell r "duration_unit" = Str "Season"
               \/ cell r "duration_unit" = Str "Seasons")
           /\ ~ (is_movie = true /\ is_tv_show = true)
           /\ (cell r "duration_unit" = NaN ->
               is_movie = false /\ is_tv_show = false)
           /\ (forall u, cell r "duration_unit" = Str u ->
               u ∉ ["min"; "Season"; "Seasons"] ->
               is_movie = false /\ is_tv_show = false))
       (rows T).
Proof.
  intros Hne HK. destruct (transform_output df Hne HK) as (T & HT & _ & Hrows).
  exists T. split; [done|]. eapply Forall_impl; [exact Hrows|].
  intros r (_ & _ & _ & (_ & _ & Hm & Ht) & _).
  rewrite Hm, Ht. clear Hm Ht.
  assert (forall v, (forall s, v <> Str s) ->
            exists is_movie is_tv_show : bool,
              eq_scalar v "min" = Bool is_movie
              /\ isin v ["Season"; "Seasons"] = Bool is_tv_show
              /\ (is_movie = true <-> v = Str "min")
              /\ (is_tv_show = true <-> v = Str "Season" \/ v = Str "Seasons")
              /\ ~ (is_movie = true /\ is_tv_show = true)
              /\ (v = NaN -> is_movie = false /\ is_tv_show = false)
              /\ (forall u, v = Str u -> u ∉ ["min"; "Season"; "Seasons"] ->
                  is_movie = false /\ is_tv_show = false)) as Hother.
  { intros v Hv. exists false, false. unfold eq_scalar.
    rewrite bool_decide_eq_false_2 by apply Hv.
    split; [done|]. split.
    { destruct v as [|s| | |]; try done. by destruct (Hv s). }
    split.
    { split; [done|]. intros E. by destruct (Hv _ E). }
    split.
    { split; [done|]. intros [E|E]; by destruct (Hv _ E). }
    split; [by intros [? ?]|]. done. }
  destruct (cell r "duration_unit") as [|u|q|b|t] eqn:Eu;
    [by apply Hother| |by apply Hother..].
  exists (bool_decide (Str u = Str "min")), (bool_decide (u ∈ ["Season"; "Seasons"])).
  split; [done|]. split; [done|]. split.
  { by rewrite bool_decide_eq_true. }
  split.
  { rewrite bool_decide_eq_true, !elem_of_cons, elem_of_nil.
    split.
    - intros [->|[->|[]]]; auto.
    - intros [[= ->]|[= ->]]; auto. }
  split.
  { rewrite !bool_decide_eq_true, !elem_of_cons, elem_of_nil.
    intros [[= ->] [?|[?|[]]]]; done. }
  split; [done|].
  intros u' [= <-] Hu. rewrite !bool_decide_eq_false. split.
  - intros [= ->]. apply Hu. by left.
  - intros Hin. apply Hu. by right.
Qed.

Lemma add_one_of_nat n : add_one (of_nat n) = of_nat (n + 1).
Proof.
  unfold add_one, of_nat, of_Z. f_equal. rewrite <- Z2Qc_inj_add. f_equal. lia.
Qed.

Lemma item_count_Str s : item_count (Str s) = of_nat (PyStr.count_comma s + 1).
Proof. unfold item_count. simpl. apply add_one_of_nat. Qed.

(** *** Commas and the items between them *)

Lemma app_cons a p u : String a p +:+ u = String a (p +:+ u).
Proof. reflexivity. Qed.

Lemma app_nil u : "" +:+ u = u.
Proof. reflexivity. Qed.









Lemma split_comma_first_spec s :
  PyStr.contains_comma (PyStr.split_comma_first s) = false
  /\ (if PyStr.contains_comma s
      then exists rest, s = PyStr.split_comma_first s +:+ "," +:+ rest
      else s = PyStr.split_comma_first s).
Proof.
  induction s as [|a s [IH1 IH2]]; simpl; [done|].
  destruct (Ascii.eqb_spec a ",") as [->|Hne]; simpl.
  - split; [done|]. by exists s.
  - rewrite (proj2 (Ascii.eqb_neq a ",")) by done. simpl. split; [done|].
    destruct (PyStr.contains_comma s).
    + destruct IH2 as [rest IH2]. exists rest. rewrite IH2 at 1. reflexivity.
    + by rewrite <- IH2.
Qed.


(** *** The unit pattern *)

Lemma strip_prefix_spec p s rest :
  PyStr.strip_prefix p s = Some rest <-> s = p +:+ rest.
Proof.
  revert s. induction p as [|a p IH]; intros s; simpl.
  - rewrite app_nil. split; [by intros [= ->]|by intros ->].
  - destruct s as [|b s]; [done|]. rewrite app_cons.
    destruct (Ascii.eqb_spec a b) as [->|Hne].
    + rewrite IH. split; [by intros ->|by intros [= ->]].
    + split; [done|]. intros [= -> _]. done.
Qed.

Lemma at_dollar_spec rest :
  PyStr.at_dollar rest = true <-> rest = "" \/ rest = String PyStr.LF "".
Proof.
  destruct rest as [|a [|b rest]]; simpl.
  - split; auto.
  - destruct (Ascii.eqb_spec a PyStr.LF) as [->|Hne].
    + split; auto.
    + split; [done|]. intros [H|H]; [done|]. injection H as H. done.
  - split; [done|]. intros [?|?]; done.
Qed.

Lemma alt_matches_here_spec alt s :
  PyStr.alt_matches_here alt s = true
  <-> s = alt \/ s = alt +:+ String PyStr.LF "".
Proof.
  unfold PyStr.alt_matches_here.
  destruct (PyStr.strip_prefix alt s) as [rest|] eqn:E.
  - apply strip_prefix_spec in E as ->. rewrite at_dollar_spec.
    split.
    + intros [-> | ->]; [left|right]; [|done].
      clear. induction alt as [|a alt IH]; [done|]. by rewrite app_cons, IH.
    + intros [H|H].
      * left. assert (alt +:+ rest = alt +:+ "") as H'.
        { rewrite H. clear. induction alt as [|a alt IH]; [done|].
          by rewrite app_cons, <- IH. }
        by apply (inj (String.append alt)) in H'.
      * right. by apply (inj (String.append alt)) in H.
  - split; [done|]. intros [H|H].
    + assert (PyStr.strip_prefix alt s = Some "") as E'; [|congruence].
      apply strip_prefix_spec. rewrite H. clear.
      induction alt as [|a alt IH]; [done|]. by rewrite app_cons, <- IH.
    + assert (PyStr.strip_prefix alt s = Some (String PyStr.LF "")) as E'; [|congruence].
      by apply strip_prefix_spec.
Qed.

Lemma match_unit_here_spec s u :
  PyStr.match_unit_here s = Some u ->
  u ∈ PyStr.unit_alternatives /\ (s = u \/ s = u +:+ String PyStr.LF "").
Proof.
  unfold PyStr.match_unit_here. intros [Hin H]%find_some.
  split; [by apply list_elem_of_In|]. by apply alt_matches_here_spec.
Qed.

(** A detected unit is one of the three literals, and it ends the text,
    up to one final newline. *)
Lemma search_unit_sound s u :
  PyStr.search_unit s = Some u ->
  u ∈ PyStr.unit_alternatives
  /\ exists p, s = p +:+ u \/ s = p +:+ u +:+ String PyStr.LF "".
Proof.
  induction s as [|a s IH].
  - simpl. intros [=].
  - cbn [PyStr.search_unit].
    destruct (PyStr.match_unit_here (String a s)) as [v|] eqn:E.
    + intros [= ->]. apply match_unit_here_spec in E as [Hin H].
      split; [done|]. exists "". by rewrite !app_nil.
    + intros [Hin [p Hp]]%IH. split; [done|]. exists (String a p).
      rewrite !app_cons. destruct Hp as [-> | ->]; auto.
Qed.

(** Solves a goal from an equation between [p +:+ literal] and a literal
    that no [p] satisfies, reading the two sides character by character. *)
Ltac no_such_prefix H :=
  repeat first
    [ discriminate H
    | injection H as ? H
    | match type of H with
      | (?p +:+ _) = _ =>
          destruct p as [|? p]; [rewrite app_nil in H | rewrite app_cons in H]
      end ].

Lemma match_unit_here_after a p u v :
  u ∈ PyStr.unit_alternatives ->
  PyStr.match_unit_here (String a (p +:+ u)) = Some v -> v = u.
Proof.
  intros Hu [Hv H]%match_unit_here_spec. revert Hu Hv H.
  unfold PyStr.unit_alternatives. rewrite !elem_of_cons, !elem_of_nil.
  intros [->|[->|[->|[]]]] [->|[->|[->|[]]]] [H|H]; try reflexivity;
    exfalso; cbv [String.append] in H; fold String.append in H;
    change (PyStr.LF) with "010"%char in H; no_such_prefix H.
Qed.

(** A text that ends with one of the three literals has that literal
    detected. *)
Lemma search_unit_complete p u :
  u ∈ PyStr.unit_alternatives -> PyStr.search_unit (p +:+ u) = Some u.
Proof.
  intros Hu. induction p as [|a p IH].
  - rewrite app_nil. revert Hu. unfold PyStr.unit_alternatives.
    rewrite !elem_of_cons, !elem_of_nil. by intros [->|[->|[->|[]]]].
  - rewrite app_cons. cbn [PyStr.search_unit].
    destruct (PyStr.match_unit_here (String a (p +:+ u))) as [v|] eqn:E; [|done].
    f_equal. by eapply match_unit_here_after.
Qed.

Lemma rstrip_last s p a :
  PyStr.rstrip s = s -> s = p +:+ String a "" -> PyStr.is_space a = false.
Proof.
  revert s. induction p as [|b p IH]; intros s Hs ->.
  - rewrite app_nil in Hs. cbn in Hs. by destruct (PyStr.is_space a).
  - rewrite app_cons in Hs. cbn [PyStr.rstrip] in Hs.
    destruct (PyStr.rstrip (p +:+ String a "")) as [|c t] eqn:E.
    + destruct (PyStr.is_space b); [done|]. injection Hs as Hs.
      destruct p; done.
    + injection Hs as Hs. rewrite Hs in E. by apply (IH _ E).
Qed.

Lemma strip_fixed_rstrip s : PyStr.strip s = s -> PyStr.rstrip s = s.
Proof.
  intros H. rewrite <- H at 1. unfold PyStr.strip.
  rewrite PyStrFacts.rstrip_idemp. exact H.
Qed.

(** On a cleaned text the detected unit is exactly the literal that ends it. *)
Lemma search_unit_stripped s u :
  PyStr.strip s = s ->
  PyStr.search_unit s = Some u
  <-> u ∈ PyStr.unit_alternatives /\ exists p, s = p +:+ u.
Proof.
  intros Hs. split.
  - intros [Hin [p [Hp|Hp]]]%search_unit_sound; [eauto|].
    exfalso. apply strip_fixed_rstrip in Hs.
    assert (PyStr.is_space PyStr.LF = false) as Hsp; [|done].
    apply (rstrip_last s (p +:+ u)); [done|].
    rewrite Hp. clear. induction p as [|a p IH]; [done|].
    by rewrite !app_cons, IH.
  - intros [Hin [p ->]]. by apply search_unit_complete.
Qed.

(** C6: in every row of the transformer's output the duration value is
    the number written by the first run of digits of the duration, and the
    duration unit is the literal among "min", "Season", "Seasons" that
    ends the duration text, missing when none does.  "90 min" gives 90,
    "min" and [is_movie] true; "3 Seasons" gives 3, "Seasons" and
    [is_tv_show] true. *)
Theorem C6_duration_parsing df :
  empty df = false ->
  Utils.validar_dados_netflix df = true ->
  exists T,
    transform_netflix_data (Some df) = Ret (Some T)
    /\ Forall (fun r =>
         (cell r "duration" = Str "90 min" ->
            cell r "duration_value" = of_Z 90
            /\ cell r "duration_unit" = Str "min"
            /\ cell r "is_movie" = Bool true
            /\ cell r "is_tv_show" = Bool false)
         /\ (cell r "duration" = Str "3 Seasons" ->
            cell r "duration_value" = of_Z 3
            /\ cell r "duration_unit" = Str "Seasons"
            /\ cell r "is_tv_show" = Bool true
            /\ cell r "is_movie" = Bool false)
         /\ (forall s, cell r "duration" = Str s ->
            (forall u, cell r "duration_unit" = Str u
               <-> u ∈ ["min"; "Season"; "Seasons"] /\ exists p, s = p +:+ u)
            /\ (cell r "duration_unit" = NaN
               <-> forall u, u ∈ ["min"; "Season"; "Seasons"] ->
                     ~ exists p, s = p +:+ u)
            /\ cell r "duration_value"
               = match PyStr.search_digits s with
                 | Some digits => of_Z (PyStr.digits_value digits)
                 | None => NaN
                 end)
         /\ (cell r "duration" = NaN ->
            cell r "duration_value" = NaN /\ cell r "duration_unit" = NaN
            /\ cell r "is_movie" = Bool false /\ cell r "is_tv_show" = Bool false))
       (rows T).
Proof.
  intros Hne HK. destruct (transform_output df Hne HK) as (T & HT & _ & Hrows).
  exists T. split; [done|]. eapply Forall_impl; [exact Hrows|].
  intros r (_ & _ & Hnorm & (Hv & Hu & Hm & Ht) & _).
  rewrite Hm, Ht, Hu, Hv. clear Hm Ht Hu Hv. unfold duration_ok in Hnorm.
  split; [by intros ->|]. split; [by intros ->|]. split; [|by intros ->].
  intros s Hs. rewrite Hs in *. destruct Hnorm as [Hstrip _]. simpl.
  assert (forall u, PyStr.search_unit s = Some u
            <-> u ∈ ["min"; "Season"; "Seasons"] /\ exists p, s = p +:+ u) as Hspec.
  { intros u. by apply search_unit_stripped. }
  split; [|split].
  - intros u. rewrite <- Hspec.
    destruct (PyStr.search_unit s); split; congruence.
  - destruct (PyStr.search_unit s) as [u|] eqn:E.
    + split; [done|]. intros H.
      destruct (proj1 (Hspec u) eq_refl) as [Hin Hp]. by destruct (H u Hin).
    + split; [|done]. intros _ u Hin Hp.
      assert (None = Some u); [|done]. apply Hspec; auto.
  - by destruct (PyStr.search_digits s).
Qed.

(** *** Release year and decade *)

(** [10 * floor(q / 10)] is the multiple of ten at or below [q]. *)
Lemma floor_bucket (q : Qc) :
  let d := (Qfloor (q / Qc_of_Z 10)%Qc * 10)%Z in
  (Qc_of_Z d ≤ q)%Qc /\ (q < Qc_of_Z (d + 10))%Qc.
Proof.
  set (x := (q / Qc_of_Z 10)%Qc). set (f := Qfloor x). cbv zeta.
  assert (Qc_of_Z 10 ≠ 0%Qc) as H10.
  { rewrite <- Z2Qc_inj_0. by intros ?%Z2Qc_inj. }
  assert (0 < Qc_of_Z 10)%Qc as Hpos.
  { rewrite <- Z2Qc_inj_0. by apply Z2Qc_inj_lt. }
  assert (q = x * Qc_of_Z 10)%Qc as Hq.
  { unfold x. by rewrite Qcmult_comm, Qcmult_div_r. }
  assert (Qc_of_Z f ≤ x)%Qc as H1 by apply Qfloor_le.
  assert (x < Qc_of_Z (f + 1))%Qc as H2 by apply Qlt_floor.
  split.
  - rewrite Z2Qc_inj_mul, Hq. by apply Qcmult_le_mono_pos_r.
  - replace (f * 10 + 10)%Z with ((f + 1) * 10)%Z by lia.
    rewrite Z2Qc_inj_mul, Hq. by apply Qcmult_lt_mono_pos_r.
Qed.

(** What [transform_dates] does to the release year of each row. *)
Lemma transform_dates_release_year df :
  has_col "release_year" df = true ->
  Forall2 (fun r r' =>
      cell r' "release_year"
      = (if lt_scalar (to_numeric (cell r "release_year")) 1900
            || gt_scalar (to_numeric (cell r "release_year")) (current_year + 2)
         then NaN else to_numeric (cell r "release_year"))
      /\ cell r' "decade" = floordiv10_times10 (cell r' "release_year"))
    (rows df) (rows (transform_dates df)).
Proof.
  intros Hc. unfold transform_dates. unfold when_col at 1.
  rewrite keeps_columns_when_col by (done || keeps_tac).
  rewrite !rows_assign, <- !list_fmap_compose.
  unfold when_col. destruct (has_col "date_added" df).
  - rewrite !rows_assign, <- !list_fmap_compose.
    apply Forall2_fmap_r, Forall_Forall2_diag, Forall_true.
    intros r. unfold compose. resolve_cells. done.
  - apply Forall2_fmap_r, Forall_Forall2_diag, Forall_true.
    intros r. unfold compose. resolve_cells. done.
Qed.

(** The integer floor of a tenth of a whole year. *)
Lemma floor_tenth (y : Z) : Qfloor (Qc_of_Z y / Qc_of_Z 10)%Qc = (y / 10)%Z.
Proof.
  transitivity (Qfloor (inject_Z y / inject_Z 10)%Q).
  - apply Qfloor_comp. unfold Qcdiv, Qcmult, Qcinv, Q2Qc. cbn [this].
    rewrite !Qred_correct. reflexivity.
  - unfold Qdiv, Qmult, Qinv, inject_Z, Qfloor. cbn. f_equal. lia.
Qed.

(** The two cells the pass writes, from the number the coercion gives. *)
Lemma clamped_year_cells (n : value) (r' : row) :
  cell r' "release_year"
  = (if lt_scalar n 1900 || gt_scalar n (current_year + 2) then NaN else n) ->
  cell r' "decade" = floordiv10_times10 (cell r' "release_year") ->
  (forall q, n = Num q ->
     ((q < Qc_of_Z 1900 \/ Qc_of_Z (current_year + 2) < q)%Qc ->
        cell r' "release_year" = NaN /\ cell r' "decade" = NaN)
     /\ ((Qc_of_Z 1900 ≤ q /\ q ≤ Qc_of_Z (current_year + 2))%Qc ->
        cell r' "release_year" = Num q
        /\ cell r' "decade" = of_Z (Qfloor (q / Qc_of_Z 10)%Qc * 10)))
  /\ (n = NaN -> cell r' "release_year" = NaN /\ cell r' "decade" = NaN).
Proof.
  intros Hy Hd. rewrite Hd, Hy. clear Hd Hy. split.
  - intros q ->. unfold lt_scalar, gt_scalar. split.
    + intros [H|H].
      * by rewrite (bool_decide_eq_true_2 _ H).
      * rewrite (bool_decide_eq_true_2 _ H). by rewrite orb_true_r.
    + intros [H1 H2].
      rewrite !bool_decide_eq_false_2 by (by apply Qcle_ngt). done.
  - by intros ->.
Qed.

(** The same for a whole year. *)
Lemma clamped_year_cells_Z (y : Z) (r' : row) :
  cell r' "release_year"
  = (if lt_scalar (of_Z y) 1900 || gt_scalar (of_Z y) (current_year + 2)
     then NaN else of_Z y) ->
  cell r' "decade" = floordiv10_times10 (cell r' "release_year") ->
  ((y < 1900 \/ current_year + 2 < y)%Z ->
     cell r' "release_year" = NaN /\ cell r' "decade" = NaN)
  /\ ((1900 <= y <= current_year + 2)%Z ->
     cell r' "release_year" = of_Z y /\ cell r' "decade" = of_Z (y / 10 * 10)).
Proof.
  intros Hy Hd.
  destruct (clamped_year_cells (of_Z y) r' Hy Hd) as [H _].
  destruct (H (Qc_of_Z y) eq_refl) as [Hout Hin]. split.
  - intros Hr. apply Hout. rewrite <- !Z2Qc_inj_lt. exact Hr.
  - intros Hr. rewrite <- (floor_tenth y). apply Hin. rewrite <- !Z2Qc_inj_le. exact Hr.
Qed.

(** The passes after [transform_dates] leave the identifier, the release
    year and the decade of every row as they are. *)
Lemma clean_text_columns_keeps_year (P : row -> value -> value -> value -> Prop) :
  rel_triple columns_after_dates
    (fun r0 r => P r0 (cell r "show_id") (cell r "release_year") (cell r "decade"))
    clean_text_columns
    (fun r0 r => P r0 (cell r "show_id") (cell r "release_year") (cell r "decade")).
Proof.
  unfold clean_text_columns. cbn [foldl text_columns]. unfold clean_text_column.
  eapply rel_conseq; cycle 1.
  - repeat rel_step idtac.
  - intros r0 r H. exact H.
Qed.

Lemma process_categorical_data_keeps_year
    (P : row -> value -> value -> value -> Prop) :
  rel_triple columns_after_features
    (fun r0 r => P r0 (cell r "show_id") (cell r "release_year") (cell r "decade"))
    process_categorical_data
    (fun r0 r => P r0 (cell r "show_id") (cell r "release_year") (cell r "decade")).
Proof.
  unfold process_categorical_data. cbn [foldl categorical_columns].
  unfold astype_category. eapply rel_conseq; cycle 1.
  - repeat rel_step idtac.
  - intros r0 r H. exact H.
Qed.

Lemma engineer_features_keeps_year
    (P : row -> value -> value -> value -> Prop) l0 df df' :
  has_cols columns_after_dates df ->
  engineer_features df = Ret df' ->
  Forall2 (fun r0 r => P r0 (cell r "show_id") (cell r "release_year") (cell r "decade"))
    l0 (rows df) ->
  Forall2 (fun r0 r => P r0 (cell r "show_id") (cell r "release_year") (cell r "decade"))
    l0 (rows df').
Proof.
  intros HK E HP. revert E. unfold engineer_features.
  cbn [foldl list_columns]. unfold count_items. norm_strings.
  rewrite content_age_ret; [|has_col_tac HK..].
  unfold mbind, result_bind. intros [= <-].
  revert l0 df HK HP.
  match goal with
  | |- forall l0 df, _ -> _ -> Forall2 ?R' l0 (rows (@?g df)) =>
      change (rel_triple columns_after_dates R' g R')
  end.
  eapply rel_conseq; cycle 1.
  - repeat rel_step idtac.
  - intros r0 r H. exact H.
Qed.

Lemma transform_dates_year :
  rel_triple Utils.colunas_obrigatorias eq transform_dates
    (fun r r' =>
       cell r' "show_id" = cell r "show_id"
       /\ cell r' "release_year"
          = (if lt_scalar (to_numeric (cell r "release_year")) 1900
                || gt_scalar (to_numeric (cell r "release_year")) (current_year + 2)
             then NaN else to_numeric (cell r "release_year"))
       /\ cell r' "decade" = floordiv10_times10 (cell r' "release_year")).
Proof.
  unfold transform_dates. eapply rel_conseq; cycle 1.
  - repeat rel_step idtac.
  - intros r0 r ->. done.
Qed.

(** Every row of the output comes from a row of the input, with the
    identifier it had and with the release year and decade that
    [transform_dates] writes. *)
Lemma transform_output_year df T :
  Utils.validar_dados_netflix df = true ->
  transform_netflix_data (Some df) = Ret (Some T) ->
  Forall (fun r' =>
      exists r,
        r ∈ rows df
        /\ cell r' "show_id" = cell r "show_id"
        /\ cell r' "release_year"
           = (if lt_scalar (to_numeric (cell r "release_year")) 1900
                 || gt_scalar (to_numeric (cell r "release_year")) (current_year + 2)
              then NaN else to_numeric (cell r "release_year"))
        /\ cell r' "decade" = floordiv10_times10 (cell r' "release_year"))
    (rows T).
Proof.
  intros HK%has_cols_required (d1 & d4 & _ & E1 & E4 & ->)%transform_inv.
  assert (has_cols Utils.colunas_obrigatorias d1) as HK1.
  { intros c Hc. unfold has_col. rewrite (clean_basic_data_columns _ _ E1).
    by apply HK. }
  pose proof (transform_dates_columns _ HK1) as HK2.
  pose proof (clean_text_columns_columns _ HK2) as HK3.
  pose proof (rel_rows _ _ _ d1 transform_dates_year HK1) as H2.
  set (P := fun (r : row) (i y d : value) =>
         i = cell r "show_id"
         /\ y = (if lt_scalar (to_numeric (cell r "release_year")) 1900
                    || gt_scalar (to_numeric (cell r "release_year")) (current_year + 2)
                 then NaN else to_numeric (cell r "release_year"))
         /\ d = floordiv10_times10 y).
  pose proof (clean_text_columns_keeps_year P _ _ HK2 H2) as H3.
  pose proof (engineer_features_keeps_year P _ _ _ HK3 E4 H3) as H4.
  assert (has_cols columns_after_features d4) as HK4.
  { destruct (engineer_features_spec (clean_text_columns (transform_dates d1)))
      as (d4' & E4' & HK4 & _);
      [done| |by assert (d4' = d4) as <- by congruence].
    apply clean_text_columns_rows; [done|]. apply transform_dates_rows; [done|].
    rewrite (clean_basic_data_rows _ _ E1). apply Forall_forall.
    intros r [_ Hr]%list_elem_of_In%filter_In. revert Hr.
    unfold complete_on, critical_columns, critical_ok. cbn [forallb].
    destruct (isna (cell r "show_id")), (isna (cell r "type")),
      (isna (cell r "title")); simpl; done. }
  pose proof (process_categorical_data_keeps_year P _ _ HK4 H4) as H5.
  apply final_cleanup_Forall, Forall_forall. intros r' Hr'.
  apply list_elem_of_lookup in Hr' as [j Hj].
  destruct (Forall2_lookup_r _ _ _ _ _ H5 Hj) as (r & Hr & HP).
  exists r. split; [|exact HP].
  apply list_elem_of_lookup_2 in Hr. rewrite (clean_basic_data_rows _ _ E1) in Hr.
  apply list_elem_of_In, filter_In in Hr as [Hr _].
  by apply elem_of_keep_first, list_elem_of_In.
Qed.

(** C7: [transform_dates] coerces the release year to a number, turns a
    year before 1900 or more than two years after the current year into a
    missing cell, and sets the decade to ten times the floor of a tenth of
    the year.  A number stays the number it is, a text becomes the number
    [pd.to_numeric] reads in it and a missing cell when it reads none, a
    missing cell stays missing; 1994 gives 1994 and the decade 1990, 2005
    gives 2005 and 2000, 1899 and the third year after the current one
    give missing cells, 1900 and the second year after the current one are
    kept.  Every row of the transformer's output has the identifier of a
    row of the input and the release year and decade that the pass gives
    to that row.  The floor buckets fractional and negative values
    downwards. *)
Theorem C7_release_year_and_decade df :
  empty df = false ->
  Utils.validar_dados_netflix df = true ->
  (* the pass, row by row *)
  Forall2 (fun r r' =>
      (forall q, to_numeric (cell r "release_year") = Num q ->
         ((q < Qc_of_Z 1900 \/ Qc_of_Z (current_year + 2) < q)%Qc ->
            cell r' "release_year" = NaN /\ cell r' "decade" = NaN)
         /\ ((Qc_of_Z 1900 ≤ q /\ q ≤ Qc_of_Z (current_year + 2))%Qc ->
            cell r' "release_year" = Num q
            /\ cell r' "decade" = of_Z (Qfloor (q / Qc_of_Z 10)%Qc * 10)))
      /\ (to_numeric (cell r "release_year") = NaN ->
            cell r' "release_year" = NaN /\ cell r' "decade" = NaN)
      (* the coercion, on the cell the row came with *)
      /\ (forall q, cell r "release_year" = Num q ->
         ((q < Qc_of_Z 1900 \/ Qc_of_Z (current_year + 2) < q)%Qc ->
            cell r' "release_year" = NaN /\ cell r' "decade" = NaN)
         /\ ((Qc_of_Z 1900 ≤ q /\ q ≤ Qc_of_Z (current_year + 2))%Qc ->
            cell r' "release_year" = Num q
            /\ cell r' "decade" = of_Z (Qfloor (q / Qc_of_Z 10)%Qc * 10)))
      /\ (forall s q, cell r "release_year" = Str s -> parse_numeric s = Some q ->
         ((q < Qc_of_Z 1900 \/ Qc_of_Z (current_year + 2) < q)%Qc ->
            cell r' "release_year" = NaN /\ cell r' "decade" = NaN)
         /\ ((Qc_of_Z 1900 ≤ q /\ q ≤ Qc_of_Z (current_year + 2))%Qc ->
            cell r' "release_year" = Num q
            /\ cell r' "decade" = of_Z (Qfloor (q / Qc_of_Z 10)%Qc * 10)))
      /\ (forall s, cell r "release_year" = Str s -> parse_numeric s = None ->
            cell r' "release_year" = NaN /\ cell r' "decade" = NaN)
      /\ (cell r "release_year" = NaN ->
            cell r' "release_year" = NaN /\ cell r' "decade" = NaN)
      (* whole years *)
      /\ (forall y : Z, cell r "release_year" = of_Z y ->
         ((y < 1900 \/ current_year + 2 < y)%Z ->
            cell r' "release_year" = NaN /\ cell r' "decade" = NaN)
         /\ ((1900 <= y <= current_year + 2)%Z ->
            cell r' "release_year" = of_Z y
            /\ cell r' "decade" = of_Z (y / 10 * 10)))
      /\ ((1992 <= current_year)%Z -> cell r "release_year" = of_Z 1994 ->
            cell r' "release_year" = of_Z 1994 /\ cell r' "decade" = of_Z 1990)
      /\ ((2003 <= current_year)%Z -> cell r "release_year" = of_Z 2005 ->
            cell r' "release_year" = of_Z 2005 /\ cell r' "decade" = of_Z 2000)
      /\ (cell r "release_year" = of_Z 1899 ->
            cell r' "release_year" = NaN /\ cell r' "decade" = NaN)
      /\ ((1898 <= current_year)%Z -> cell r "release_year" = of_Z 1900 ->
            cell r' "release_year" = of_Z 1900 /\ cell r' "decade" = of_Z 1900)
      /\ ((1898 <= current_year)%Z -> cell r "release_year" = of_Z (current_year + 2) ->
            cell r' "release_year" = of_Z (current_year + 2))
      /\ (cell r "release_year" = of_Z (current_year + 3) ->
            cell r' "release_year" = NaN /\ cell r' "decade" = NaN))
    (rows df) (rows (transform_dates df))
  (* the rows of the output *)
  /\ (exists T,
        transform_netflix_data (Some df) = Ret (Some T)
        /\ Forall (fun r =>
             ((cell r "release_year" = NaN /\ cell r "decade" = NaN)
              \/ exists q (d : Z),
                   cell r "release_year" = Num q
                   /\ (Qc_of_Z 1900 ≤ q /\ q ≤ Qc_of_Z (current_year + 2))%Qc
                   /\ cell r "decade" = of_Z d
                   /\ d = (Qfloor (q / Qc_of_Z 10)%Qc * 10)%Z
                   /\ (Qc_of_Z d ≤ q /\ q < Qc_of_Z (d + 10))%Qc)
             /\ (cell r "release_year" = of_Z 1994 -> cell r "decade" = of_Z 1990)
             /\ (cell r "release_year" = of_Z 2005 -> cell r "decade" = of_Z 2000))
           (rows T)
        (* where they come from *)
        /\ Forall (fun r' =>
             exists (i : nat) (r r1 : row),
               rows df !! i = Some r
               /\ rows (transform_dates df) !! i = Some r1
               /\ cell r' "show_id" = cell r "show_id"
               /\ cell r' "release_year" = cell r1 "release_year"
               /\ cell r' "decade" = cell r1 "decade")
           (rows T))
  (* floor semantics of the bucket itself *)
  /\ floordiv10_times10 (of_Z 1994) = of_Z 1990
  /\ floordiv10_times10 (of_Z 2005) = of_Z 2000
  /\ floordiv10_times10 (Num (Q2Qc (3989 # 2))) = of_Z 1990
  /\ floordiv10_times10 (of_Z (-5)) = of_Z (-10)
  /\ floordiv10_times10 (Num (Q2Qc (-1 # 2))) = of_Z (-10).
Proof.
  intros Hne HK.
  assert (has_col "release_year" df = true) as Hc.
  { apply has_cols_required in HK. apply HK. in_cols. }
  pose proof (transform_dates_release_year df Hc) as Hpass.
  split; [|split].
  - eapply Forall2_impl; [exact Hpass|].
    intros r r' [Hy Hd].
    destruct (clamped_year_cells _ r' Hy Hd) as [HNum HNaN].
    assert (forall y : Z, cell r "release_year" = of_Z y ->
              ((y < 1900 \/ current_year + 2 < y)%Z ->
                 cell r' "release_year" = NaN /\ cell r' "decade" = NaN)
              /\ ((1900 <= y <= current_year + 2)%Z ->
                 cell r' "release_year" = of_Z y
                 /\ cell r' "decade" = of_Z (y / 10 * 10))) as HZ.
    { intros y E. apply clamped_year_cells_Z; [|exact Hd].
      rewrite Hy, E. reflexivity. }
    split; [exact HNum|]. split; [exact HNaN|].
    split; [intros q E; apply HNum; by rewrite E|].
    split; [intros s q E Hp; apply HNum; rewrite E; simpl; by rewrite Hp|].
    split; [intros s E Hp; apply HNaN; rewrite E; simpl; by rewrite Hp|].
    split; [intros E; apply HNaN; by rewrite E|].
    split; [exact HZ|].
    split; [intros Hcy E; destruct (HZ 1994%Z E) as [_ Hin]; apply Hin; lia|].
    split; [intros Hcy E; destruct (HZ 2005%Z E) as [_ Hin]; apply Hin; lia|].
    split; [intros E; destruct (HZ 1899%Z E) as [Hout _]; apply Hout; lia|].
    split; [intros Hcy E; destruct (HZ 1900%Z E) as [_ Hin]; apply Hin; lia|].
    split; [intros Hcy E; destruct (HZ _ E) as [_ Hin]; apply Hin; lia|].
    intros E. destruct (HZ _ E) as [Hout _]. apply Hout. lia.
  - destruct (transform_output df Hne HK) as (T & HT & _ & Hrows).
    exists T. split; [done|]. split.
    + eapply Forall_impl; [exact Hrows|].
      intros r (_ & (Hy & Hd) & _). rewrite Hd. clear Hd. split; [|split].
      * destruct (cell r "release_year") as [|s|q|b|t]; try done; [by left|].
        right. exists q, (Qfloor (q / Qc_of_Z 10)%Qc * 10)%Z.
        split; [done|]. split; [done|]. split; [done|]. split; [done|].
        apply floor_bucket.
      * by intros ->.
      * by intros ->.
    + eapply Forall_impl; [exact (transform_output_year df T HK HT)|].
      intros r' (r & [i Hi]%list_elem_of_lookup & Hid & Hy & Hd).
      destruct (Forall2_lookup_l _ _ _ _ _ Hpass Hi) as (r1 & Hi1 & Hy1 & Hd1).
      exists i, r, r1. split; [done|]. split; [done|]. split; [done|].
      split; [by rewrite Hy, Hy1|]. by rewrite Hd, Hd1, Hy, Hy1.
  - split; [reflexivity|]. split; [reflexivity|]. split; [reflexivity|].
    split; reflexivity.
Qed.

End Claims.

(** ** The final sort *)

Section SortClaim.
Import Pd Transform.

(** C8: on a frame that has the date-added and identifier columns,
    [final_cleanup] returns the rows left after dropping duplicates,
    ordered by date added and then by identifier, both ascending; a row
    whose date added is missing comes after every row whose date added is
    present; and rows that agree on both keys keep the order they had. *)
Theorem C8_final_cleanup_sort df :
  has_col "date_added" df = true ->
  has_col "show_id" df = true ->
  let out := rows (final_cleanup df) in
  let by_ := ["date_added"; "show_id"] in
  out ≡ₚ keep_first (rows df)
  /\ (forall i j ri rj,
        i < j -> out !! i = Some ri -> out !! j = Some rj ->
        (cell ri "date_added" <> cell rj "date_added"
         /\ value_leb (cell ri "date_added") (cell rj "date_added") = true)
        \/ (cell ri "date_added" = cell rj "date_added"
            /\ value_leb (cell ri "show_id") (cell rj "show_id") = true))
  /\ (forall i j ri rj,
        i < j -> out !! i = Some ri -> out !! j = Some rj ->
        cell ri "date_added" = NaN -> cell rj "date_added" = NaN)
  /\ (forall k, filter (same_key by_ k) out
                = filter (same_key by_ k) (keep_first (rows df)))
  /\ (forall x y, value_leb (Ts x) (Ts y) = true <-> (x <= y)%Z)
  /\ (forall x y, value_leb (Str x) (Str y) = true <-> String.leb x y = true)
  /\ (forall v, value_leb v NaN = true)
  /\ (forall v, value_leb NaN v = true -> v = NaN).
Proof.
  intros Hd Hs out by_.
  assert (out = stable_sort (key_leb by_) (keep_first (rows df))) as Hout.
  { by apply final_cleanup_rows_sorted. }
  assert (forall i j ri rj,
            i < j -> out !! i = Some ri -> out !! j = Some rj ->
            key_leb by_ ri rj = true) as Hsorted.
  { intros i j ri rj Hij Hi Hj.
    apply (StronglySorted_lookup_lt (key_le by_) out i j); [|done..].
    rewrite Hout. apply stable_sort_StronglySorted. }
  split; [rewrite Hout; apply stable_sort_Permutation|].
  split; [|split; [|split]].
  - intros i j ri rj Hij Hi Hj. pose proof (Hsorted i j ri rj Hij Hi Hj) as H.
    unfold by_ in H. cbn [key_leb] in H.
    destruct (decide (cell ri "date_added" = cell rj "date_added")) as [E|E].
    + right. split; [done|].
      destruct (decide (cell ri "show_id" = cell rj "show_id")) as [E'|E']; [|done].
      rewrite E'. apply value_leb_refl.
    + left. done.
  - intros i j ri rj Hij Hi Hj Hna. pose proof (Hsorted i j ri rj Hij Hi Hj) as H.
    unfold by_ in H. cbn [key_leb] in H.
    destruct (decide (cell ri "date_added" = cell rj "date_added")) as [E|E].
    + by rewrite <- E.
    + rewrite Hna in H. by apply value_leb_NaN_l.
  - intros k. rewrite Hout. apply stable_sort_stable.
  - split; [intros x y; apply Z.leb_le|]. split; [done|].
    split; [apply value_leb_NaN_r|apply value_leb_NaN_l].
Qed.

(** The sample frame, sorted. *)
Example final_cleanup_unsorted :
  rows (final_cleanup Sample.unsorted)
  = [Sample.dated "s9" "C" (Ts 1); Sample.dated "s1" "E" (Ts 2);
     Sample.dated "s2" "B" (Ts 2); Sample.dated "s2" "D" (Ts 2);
     Sample.dated "s1" "A" NaN].
Proof. vm_compute. reflexivity. Qed.

Lemma C8_final_cleanup_sort_witness :
  has_col "date_added" Sample.unsorted = true
  /\ has_col "show_id" Sample.unsorted = true
  /\ filter (same_key ["date_added"; "show_id"] (Sample.dated "s2" "B" (Ts 2)))
       (rows (final_cleanup Sample.unsorted))
     = filter (same_key ["date_added"; "show_id"] (Sample.dated "s2" "B" (Ts 2)))
         (keep_first (rows Sample.unsorted)).
Proof.
  split; [reflexivity|]. split; [reflexivity|].
  apply (C8_final_cleanup_sort Sample.unsorted eq_refl eq_refl).
Defined.

End SortClaim.

(** ** Running the transformer on its own output *)

Section Rerun.
Import Pd Transform Derived.
Context {rt : Runtime}.

Lemma drop_duplicates_fixed df : NoDup (rows df) -> drop_duplicates df = df.
Proof.
  intros H. unfold drop_duplicates. rewrite keep_first_NoDup by done.
  by destruct df.
Qed.

Lemma frame_eq (d1 d2 : DataFrame) :
  columns d1 = columns d2 -> rows d1 = rows d2 -> d1 = d2.
Proof. destruct d1, d2. simpl. by intros -> ->. Qed.

Lemma list_filter_ext_Forall {A} (f g : A -> bool) (P : A -> Prop) l :
  Forall P l -> (forall x, P x -> f x = g x) -> List.filter f l = List.filter g l.
Proof.
  induction 1 as [|x l Hx Hl IH]; intros Hfg; simpl; [done|].
  rewrite (Hfg x Hx), IH by done. done.
Qed.

Lemma list_filter_all {A} (f : A -> bool) l :
  Forall (fun x => f x = true) l -> List.filter f l = l.
Proof. induction 1 as [|x l Hx Hl IH]; simpl; [done|]. by rewrite Hx, IH. Qed.

(** C4, as the code has it: the output [T] of the transformer has no two
    equal rows, so dropping duplicates leaves it as it is; dropping the
    rows without a critical cell removes from [T] exactly the rows whose
    title is missing, and leaves [T] and its number of rows as they are
    when no title of [T] is missing. *)
Theorem C4_basic_cleaning_on_output df :
  empty df = false ->
  Utils.validar_dados_netflix df = true ->
  exists T,
    transform_netflix_data (Some df) = Ret (Some T)
    /\ drop_duplicates T = T
    /\ exists T',
         clean_basic_data T = Ret T'
         /\ columns T' = columns T
         /\ rows T' = List.filter (fun r => negb (isna (cell r "title"))) (rows T)
         /\ (Forall (fun r => isna (cell r "title") = false) (rows T) ->
             T' = T /\ len T' = len T).
Proof.
  intros Hne HK. destruct (transform_output df Hne HK) as (T & HT & HKT & Hrows).
  exists T. split; [done|].
  destruct (transform_output_shape df T HT) as [_ Hnd].
  split; [by apply drop_duplicates_fixed|].
  assert (has_cols Utils.colunas_obrigatorias T) as HKT'.
  { intros c Hc. apply HKT. unfold columns_after_features, columns_after_dates.
    rewrite !elem_of_app. auto. }
  destruct (clean_basic_data_ret T HKT') as [T' HT'].
  exists T'. split; [done|].
  pose proof (clean_basic_data_columns _ _ HT') as Hcols.
  pose proof (clean_basic_data_rows _ _ HT') as Hr.
  rewrite keep_first_NoDup in Hr by done.
  assert (rows T' = List.filter (fun r => negb (isna (cell r "title"))) (rows T)) as Hr'.
  { rewrite Hr. eapply list_filter_ext_Forall; [exact Hrows|].
    intros r ((H1 & H2) & _). unfold complete_on, critical_columns.
    cbn [forallb]. rewrite H1, H2. cbn [negb andb]. by rewrite !andb_true_r. }
  split; [done|]. split; [done|].
  intros Hall.
  assert (rows T' = rows T) as Hsame.
  { rewrite Hr'. apply list_filter_all. eapply Forall_impl; [exact Hall|].
    by intros r ->. }
  split.
  - by apply frame_eq.
  - unfold len. by rewrite Hsame.
Qed.

End Rerun.

(** A run on a frame that is not empty and has the required columns
    returns the frame that [Sample.returned] reads off it. *)
Lemma returned_eq {rt : Runtime} df :
  Pd.empty df = false -> Utils.validar_dados_netflix df = true ->
  Transform.transform_netflix_data (Some df)
  = Ret (Some (Sample.returned (Transform.transform_netflix_data (Some df)))).
Proof.
  intros Hne HK. destruct (transform_output df Hne HK) as (X & HX & _).
  by rewrite HX.
Qed.

(** C4, as the claim states it, fails: the sample catalog has an entry
    whose title is blank.  The entry passes the first critical-cell drop,
    text cleaning makes its title missing, and the second run drops it:
    three rows come out of the first run and two out of the second. *)
Lemma C4_rerun_drops_a_row :
  let rt := IsoRuntime.runtime in
  let T := Sample.returned (Transform.transform_netflix_data (Some Sample.catalog)) in
  let T2 := Sample.returned (Transform.transform_netflix_data (Some T)) in
  Transform.transform_netflix_data (Some Sample.catalog) = Ret (Some T)
  /\ Transform.transform_netflix_data (Some T) = Ret (Some T2)
  /\ Pd.len T = 3
  /\ Pd.len T2 = 2.
Proof.
  intros rt T T2.
  split.
  { unfold T. apply (returned_eq Sample.catalog); vm_compute; reflexivity. }
  split.
  { unfold T2. apply (returned_eq T); vm_compute; reflexivity. }
  split; vm_compute; reflexivity.
Qed.

(** A second way a row goes on the second run, with every title present:
    the two sample entries differ after the first run (director "nan"
    against a missing director) and no longer after the second. *)
Example rerun_merges_rows :
  let rt := IsoRuntime.runtime in
  let T := Sample.returned (Transform.transform_netflix_data (Some Sample.twins)) in
  let T2 := Sample.returned (Transform.transform_netflix_data (Some T)) in
  Transform.transform_netflix_data (Some Sample.twins) = Ret (Some T)
  /\ Transform.transform_netflix_data (Some T) = Ret (Some T2)
  /\ Pd.len T = 2
  /\ forallb (fun r => negb (Pd.isna (Pd.cell r "title"))) (Pd.rows T) = true
  /\ Pd.len T2 = 1.
Proof.
  intros rt T T2.
  split.
  { unfold T. apply (returned_eq Sample.twins); vm_compute; reflexivity. }
  split.
  { unfold T2. apply (returned_eq T); vm_compute; reflexivity. }
  repeat split; vm_compute; reflexivity.
Qed.

(** ** The theorems at the sample catalog *)

Section Witnesses.
Import Pd Transform.

Lemma C3_output_rows_at_most_input_witness :
  empty Sample.catalog = false
  /\ Utils.validar_dados_netflix Sample.catalog = true
  /\ exists T,
       @transform_netflix_data IsoRuntime.runtime (Some Sample.catalog) = Ret (Some T)
       /\ len T <= len Sample.catalog.
Proof.
  split; [vm_compute; reflexivity|]. split; [vm_compute; reflexivity|].
  apply (@C3_output_rows_at_most_input IsoRuntime.runtime Sample.catalog);
    vm_compute; reflexivity.
Defined.

Lemma C5_rating_category_witness :
  empty Sample.catalog = false
  /\ Utils.validar_dados_netflix Sample.catalog = true
  /\ exists T,
       @transform_netflix_data IsoRuntime.runtime (Some Sample.catalog) = Ret (Some T)
       /\ Forall (fun r =>
            cell r "rating" = Str "PG-13" -> cell r "rating_category" = Str "Teen")
          (rows T).
Proof.
  split; [vm_compute; reflexivity|]. split; [vm_compute; reflexivity|].
  destruct (@C5_rating_category IsoRuntime.runtime Sample.catalog)
    as (T & HT & H); [vm_compute; reflexivity..|].
  exists T. split; [exact HT|].
  eapply Forall_impl; [exact H|]. intros r Hr. apply Hr.
Defined.

Lemma C6_duration_parsing_witness :
  empty Sample.catalog = false
  /\ Utils.validar_dados_netflix Sample.catalog = true
  /\ exists T,
       @transform_netflix_data IsoRuntime.runtime (Some Sample.catalog) = Ret (Some T)
       /\ Forall (fun r =>
            cell r "duration" = Str "90 min" ->
            cell r "duration_value" = of_Z 90
            /\ cell r "duration_unit" = Str "min"
            /\ cell r "is_movie" = Bool true
            /\ cell r "is_tv_show" = Bool false)
          (rows T).
Proof.
  split; [vm_compute; reflexivity|]. split; [vm_compute; reflexivity|].
  destruct (@C6_duration_parsing IsoRuntime.runtime Sample.catalog)
    as (T & HT & H); [vm_compute; reflexivity..|].
  exists T. split; [exact HT|].
  eapply Forall_impl; [exact H|]. intros r Hr. apply Hr.
Defined.

Lemma C7_release_year_and_decade_witness :
  empty Sample.catalog = false
  /\ Utils.validar_dados_netflix Sample.catalog = true
  /\ (exists r r',
        rows Sample.catalog !! 0 = Some r
        /\ rows (@transform_dates IsoRuntime.runtime Sample.catalog) !! 0 = Some r'
        /\ cell r "release_year" = of_Z 1994
        /\ cell r' "release_year" = of_Z 1994
        /\ cell r' "decade" = of_Z 1990)
  /\ (exists r r',
        rows Sample.catalog !! 1 = Some r
        /\ rows (@transform_dates IsoRuntime.runtime Sample.catalog) !! 1 = Some r'
        /\ cell r "release_year" = Str "2005"
        /\ cell r' "release_year" = of_Z 2005
        /\ cell r' "decade" = of_Z 2000)
  /\ (exists r r',
        rows Sample.catalog !! 3 = Some r
        /\ rows (@transform_dates IsoRuntime.runtime Sample.catalog) !! 3 = Some r'
        /\ cell r "release_year" = Str "1800"
        /\ cell r' "release_year" = NaN
        /\ cell r' "decade" = NaN)
  /\ exists T,
       @transform_netflix_data IsoRuntime.runtime (Some Sample.catalog) = Ret (Some T)
       /\ Forall (fun r =>
            cell r "release_year" = of_Z 1994 -> cell r "decade" = of_Z 1990)
          (rows T)
       /\ Exists (fun r =>
            cell r "show_id" = Str "s2"
            /\ cell r "release_year" = of_Z 1994
            /\ cell r "decade" = of_Z 1990)
          (rows T).
Proof.
  split; [vm_compute; reflexivity|]. split; [vm_compute; reflexivity|].
  destruct (@C7_release_year_and_decade IsoRuntime.runtime Sample.catalog)
    as (Hpass & (T & HT & H & _) & _); [vm_compute; reflexivity..|].
  split; [|split; [|split]].
  - destruct (Forall2_lookup_l _ _ _ 0 Sample.movie Hpass eq_refl)
      as (r' & Hr' & _ & _ & _ & _ & _ & _ & _ & H1994 & _).
    exists Sample.movie, r'. split; [reflexivity|]. split; [exact Hr'|].
    split; [reflexivity|]. apply H1994; [by vm_compute|reflexivity].
  - destruct (Forall2_lookup_l _ _ _ 1 Sample.series Hpass eq_refl)
      as (r' & Hr' & _ & _ & _ & HStr & _).
    exists Sample.series, r'. split; [reflexivity|]. split; [exact Hr'|].
    split; [reflexivity|].
    destruct (HStr "2005" (Qc_of_Z 2005) eq_refl eq_refl) as [_ Hin].
    apply Hin. split; by vm_compute.
  - destruct (Forall2_lookup_l _ _ _ 3 Sample.blank_title Hpass eq_refl)
      as (r' & Hr' & _ & _ & _ & HStr & _).
    exists Sample.blank_title, r'. split; [reflexivity|]. split; [exact Hr'|].
    split; [reflexivity|].
    destruct (HStr "1800" (Qc_of_Z 1800) eq_refl eq_refl) as [Hout _].
    apply Hout. left. by vm_compute.
  - exists T. split; [exact HT|]. split.
    + eapply Forall_impl; [exact H|]. intros r Hr. apply Hr.
    + replace T
        with (Sample.returned
                (@transform_netflix_data IsoRuntime.runtime (Some Sample.catalog)))
        by (by rewrite HT).
      apply (bool_decide_unpack _). vm_compute. reflexivity.
Defined.


Lemma C10_movie_and_series_flags_exclusive_witness :
  empty Sample.catalog = false
  /\ Utils.validar_dados_netflix Sample.catalog = true
  /\ exists T,
       @transform_netflix_data IsoRuntime.runtime (Some Sample.catalog) = Ret (Some T)
       /\ Forall (fun r =>
            ~ (cell r "is_movie" = Bool true /\ cell r "is_tv_show" = Bool true))
          (rows T).
Proof.
  split; [vm_compute; reflexivity|]. split; [vm_compute; reflexivity|].
  destruct (@C10_movie_and_series_flags_exclusive IsoRuntime.runtime Sample.catalog)
    as (T & HT & H); [vm_compute; reflexivity..|].
  exists T. split; [exact HT|].
  eapply Forall_impl; [exact H|].
  intros r (m & t & Hm & Ht & _ & _ & Hex & _) [H1 H2].
  apply Hex. split; congruence.
Defined.

Lemma C4_basic_cleaning_on_output_witness :
  empty Sample.catalog = false
  /\ Utils.validar_dados_netflix Sample.catalog = true
  /\ exists T,
       @transform_netflix_data IsoRuntime.runtime (Some Sample.catalog) = Ret (Some T)
       /\ drop_duplicates T = T.
Proof.
  split; [vm_compute; reflexivity|]. split; [vm_compute; reflexivity|].
  destruct (@C4_basic_cleaning_on_output IsoRuntime.runtime Sample.catalog)
    as (T & HT & H & _); [vm_compute; reflexivity..|].
  exists T. split; [exact HT|exact H].
Defined.

End Witnesses.

(** * Further properties *)

(** ** Extractors: what a returned frame went through *)

Section ExtractReturns.
Import Pd Utils Extract.

(** X1 ([extract_csv]): the generic CSV extractor returns a frame exactly
    when the file exists, the frame is what the first encoding that
    decodes gives, and the frame is not empty; the emptiness test is
    applied on both encodings. *)
Theorem extract_csv_returns f df :
  extract_csv f = Some df <->
  file_exists f = true /\ empty df = false
  /\ (read_utf8 f = ReadFrame df
      \/ (read_utf8 f = ReadDecodeError /\ read_latin1 f = ReadFrame df)).
Proof.
  unfold extract_csv, validate_data, validar_dados. split.
  - destruct (file_exists f); simpl; [|done].
    destruct (read_utf8 f) as [d| |]; [| |done].
    + destruct (empty d) eqn:E; [done|]. intros [= <-]. auto.
    + destruct (read_latin1 f) as [d| |]; [|done..].
      destruct (empty d) eqn:E; [done|]. intros [= <-]. auto.
  - intros (-> & He & [-> | [-> ->]]); simpl; by rewrite He.
Qed.

(** X2 ([extract_netflix_data]): the Netflix extractor returns a frame
    exactly when the file exists and either the UTF-8 read gives a frame
    that is not empty and has every required column, or the UTF-8 read
    fails to decode and the Latin-1 read gives a frame, whatever it
    holds. *)
Theorem extract_netflix_data_returns f df :
  extract_netflix_data f = Some df <->
  file_exists f = true
  /\ ((read_utf8 f = ReadFrame df /\ empty df = false
       /\ forall c, c ∈ colunas_obrigatorias -> has_col c df = true)
      \/ (read_utf8 f = ReadDecodeError /\ read_latin1 f = ReadFrame df)).
Proof.
  unfold extract_netflix_data, validate_data, validate_netflix_data, validar_dados.
  split.
  - destruct (file_exists f); simpl; [|done].
    destruct (read_utf8 f) as [d| |]; [| |done].
    + destruct (empty d) eqn:E; [done|]. simpl.
      destruct (validar_dados_netflix d) eqn:V; [|done]. simpl.
      intros [= <-]. split; [done|]. left. split; [done|]. split; [done|].
      by apply has_cols_required.
    + destruct (read_latin1 f) as [d| |]; [|done..].
      intros [= <-]. auto.
  - intros (-> & [(-> & He & HK) | [-> ->]]); simpl; [|done].
    apply has_cols_required in HK. by rewrite He, HK.
Qed.

Lemma api_attempts_Some respond todo attempt df :
  api_attempts respond todo attempt = Some df <->
  exists i, i < todo
    /\ respond (attempt + i) = ApiFrame df
    /\ empty df = false
    /\ forall j, j < i -> respond (attempt + j) = ApiRaises.
Proof.
  revert attempt. induction todo as [|todo IH]; intros attempt; simpl.
  - split; [done|]. intros (i & Hi & _). lia.
  - destruct (respond attempt) as [d|] eqn:E.
    + unfold validate_data, validar_dados. split.
      * destruct (empty d) eqn:He; [done|]. intros [= <-].
        exists 0. rewrite Nat.add_0_r. split; [lia|]. split; [done|]. split; [done|].
        intros j Hj. lia.
      * intros (i & Hi & Hr & He & Hfail). destruct i as [|i].
        -- rewrite Nat.add_0_r, E in Hr. injection Hr as ->. by rewrite He.
        -- specialize (Hfail 0 ltac:(lia)). rewrite Nat.add_0_r, E in Hfail. done.
    + rewrite IH. split.
      * intros (i & Hi & Hr & He & Hfail). exists (S i).
        rewrite Nat.add_succ_r. split; [lia|]. split; [done|]. split; [done|].
        intros [|j] Hj; [by rewrite Nat.add_0_r|].
        rewrite Nat.add_succ_r. apply Hfail. lia.
      * intros (i & Hi & Hr & He & Hfail). destruct i as [|i].
        { rewrite Nat.add_0_r, E in Hr. done. }
        exists i. rewrite Nat.add_succ_r in Hr. split; [lia|]. split; [done|].
        split; [done|]. intros j Hj. specialize (Hfail (S j) ltac:(lia)).
        by rewrite Nat.add_succ_r in Hfail.
Qed.

(** X3 ([extract_from_api]): the API extractor returns a frame exactly
    when one of the first [RETRY_COUNT] requests answers with a frame
    that is not empty and every request before it raised. *)
Theorem extract_from_api_returns respond df :
  extract_from_api respond = Some df <->
  exists i, i < Config.RETRY_COUNT
    /\ respond i = ApiFrame df
    /\ empty df = false
    /\ forall j, j < i -> respond j = ApiRaises.
Proof. unfold extract_from_api. by rewrite api_attempts_Some. Qed.

Lemma api_attempts_stops respond todo attempt i df :
  i < todo ->
  respond (attempt + i) = ApiFrame df ->
  empty df = true ->
  (forall j, j < i -> respond (attempt + j) = ApiRaises) ->
  api_attempts respond todo attempt = None
  /\ api_requests respond todo attempt = seq attempt (S i).
Proof.
  revert attempt i. induction todo as [|todo IH]; intros attempt i Hi Hr He Hfail; [lia|].
  simpl. destruct i as [|i].
  - rewrite Nat.add_0_r in Hr. rewrite Hr.
    unfold validate_data, validar_dados. by rewrite He.
  - pose proof (Hfail 0 ltac:(lia)) as H0. rewrite Nat.add_0_r in H0. rewrite H0.
    destruct (IH (S attempt) i) as [-> ->]; [lia| |done| |done].
    + by rewrite Nat.add_succ_comm.
    + intros j Hj. rewrite Nat.add_succ_comm. apply Hfail. lia.
Qed.

(** X4 ([extract_from_api]): an answer that is an empty frame ends the
    call at once with [None]: no request follows it, although attempts
    are left and a later one would have answered with data. *)
Theorem extract_from_api_no_retry_on_empty respond i df :
  i < Config.RETRY_COUNT ->
  respond i = ApiFrame df ->
  empty df = true ->
  (forall j, j < i -> respond j = ApiRaises) ->
  extract_from_api respond = None
  /\ requests_sent respond = seq 0 (S i).
Proof.
  intros Hi Hr He Hfail. unfold extract_from_api, requests_sent.
  by apply (api_attempts_stops respond Config.RETRY_COUNT 0 i df).
Qed.

Lemma api_requests_shape respond todo attempt :
  0 < todo ->
  exists n, 1 <= n <= todo
    /\ api_requests respond todo attempt = seq attempt n
    /\ (forall j, j < n - 1 -> respond (attempt + j) = ApiRaises)
    /\ (n < todo -> exists df, respond (attempt + (n - 1)) = ApiFrame df).
Proof.
  revert attempt. induction todo as [|todo IH]; intros attempt Hpos; [lia|].
  simpl. destruct (respond attempt) as [d|] eqn:E.
  - exists 1. split; [lia|]. split; [done|]. split.
    + intros j Hj. lia.
    + intros _. exists d. by rewrite Nat.add_0_r.
  - destruct todo as [|todo].
    + exists 1. split; [lia|]. split; [done|]. split.
      * intros j Hj. lia.
      * intros Hn. lia.
    + destruct (IH (S attempt) ltac:(lia)) as (n & Hn & -> & Hfail & Hlast).
      exists (S n). split; [lia|]. split; [done|]. split.
      * intros [|j] Hj; [by rewrite Nat.add_0_r|].
        rewrite <- Nat.add_succ_comm. apply Hfail. lia.
      * intros Hlt. destruct (Hlast ltac:(lia)) as [df Hdf]. exists df.
        rewrite <- Hdf. f_equal. lia.
Qed.

(** X5 ([extract_from_api]): one call sends the requests 0, 1, ... in
    order, at least one and never more than [RETRY_COUNT]; every request
    but the last raised, and the call stops before the last allowed
    request only on an answer. *)
Theorem extract_from_api_requests respond :
  exists n, 1 <= n <= Config.RETRY_COUNT
    /\ requests_sent respond = seq 0 n
    /\ (forall j, j < n - 1 -> respond j = ApiRaises)
    /\ (n < Config.RETRY_COUNT -> exists df, respond (n - 1) = ApiFrame df).
Proof.
  unfold requests_sent.
  apply (api_requests_shape respond Config.RETRY_COUNT 0). unfold Config.RETRY_COUNT. lia.
Qed.

End ExtractReturns.

(** ** Orchestrator: every run *)

Section PipelineRuns.
Import Pd Pipeline.
Context {rt : Runtime}.

(** X6 ([run_full_pipeline]): on an object whose end time and run report
    are unset, as [__init__] leaves them, a run returns [False] whatever
    the file, the store and the report functions do, and leaves both
    unset; so does every later run on the same object. *)
Theorem run_full_pipeline_never_succeeds w st :
  pipeline_end_time st = None ->
  pipeline_report st = None ->
  (run_full_pipeline w st).2 = false
  /\ pipeline_end_time (run_full_pipeline w st).1 = None
  /\ pipeline_report (run_full_pipeline w st).1 = None
  /\ pipeline_start_time (run_full_pipeline w st).1 = Some (clock_start w).
Proof.
  intros Hend Hrep. unfold run_full_pipeline, run_steps, _extract_data.
  destruct (raw_data (set_raw_data _ _)) eqn:Hraw; simpl; [|done].
  unfold _transform_data.
  destruct (Transform.transform_netflix_data _) as [out|e]; simpl; [|done].
  destruct out as [tdf|]; simpl; [|done].
  unfold _load_data. destruct (Load.load_to_postgres _ _); simpl; [|done].
  rewrite generate_reports_true.
  rewrite create_pipeline_report_raises; done.
Qed.

(** X7 ([_generate_reports]): the reporting step returns [True] and
    leaves the attributes of the object as they were, whether the bodies
    of the dashboard and of the analysis report return or raise. *)
Theorem generate_reports_tolerant w st :
  _generate_reports w st = (st, Ret true).
Proof.
  unfold _generate_reports, Visualizations.create_netflix_dashboard,
    Visualizations.generate_analysis_report.
  by destruct (dashboard_body w _), (report_body w _).
Qed.

End PipelineRuns.

(** ** Basic cleaning and final cleanup as operations on a frame *)

Section Cleaning.
Import Pd Transform.
Context {rt : Runtime}.

Lemma list_filter_sublist {A} (f : A -> bool) (l : list A) :
  List.filter f l `sublist_of` l.
Proof.
  induction l as [|x l IH]; simpl; [done|].
  destruct (f x); [by apply sublist_skip|by apply sublist_cons].
Qed.

Lemma keep_first_sublist (l : list row) : keep_first l `sublist_of` l.
Proof.
  induction l as [|r l IH]; simpl; [done|].
  apply sublist_skip. etransitivity; [apply sublist_filter|done].
Qed.

Lemma critical_columns_present df :
  forallb (fun c => has_col c (drop_duplicates df)) critical_columns = true <->
  forall c, c ∈ critical_columns -> has_col c df = true.
Proof.
  rewrite forallb_forall. split.
  - intros H c Hc. by apply (H c), list_elem_of_In.
  - intros H c Hc. by apply (H c), list_elem_of_In.
Qed.

(** X8 ([clean_basic_data]): basic cleaning raises [KeyError] exactly
    when the frame lacks one of [show_id], [title], [type]; otherwise
    it returns the same columns and, in their order, the rows of the
    input without repeats and without the rows that miss a critical
    cell. *)
Theorem clean_basic_data_spec df :
  (clean_basic_data df = Raise KeyError <->
   exists c, c ∈ critical_columns /\ has_col c df = false)
  /\ forall d1, clean_basic_data df = Ret d1 ->
       columns d1 = columns df
       /\ rows d1 `sublist_of` rows df
       /\ NoDup (rows d1)
       /\ forall r, r ∈ rows d1 <->
            r ∈ rows df
            /\ isna (cell r "show_id") = false
            /\ isna (cell r "title") = false
            /\ isna (cell r "type") = false.
Proof.
  split.
  - unfold clean_basic_data, dropna.
    destruct (forallb _ _) eqn:E.
    + split; [done|]. intros (c & Hc & Hn).
      pose proof (proj1 (critical_columns_present df) E c Hc) as E'. congruence.
    + split; [|done]. intros _.
      destruct (decide (Forall (fun c => has_col c df = true) critical_columns)) as [H|H].
      * rewrite Forall_forall in H. apply (proj2 (critical_columns_present df)) in H. congruence.
      * apply not_Forall_Exists in H; [|apply _].
        apply Exists_exists in H as (c & Hc & Hn). exists c. split; [done|].
        by apply not_true_is_false.
  - intros d1 E. pose proof (clean_basic_data_rows _ _ E) as Hr.
    split; [by apply (clean_basic_data_columns _ _ E)|]. rewrite Hr.
    split; [|split].
    + etransitivity; [apply list_filter_sublist|apply keep_first_sublist].
    + eapply sublist_NoDup; [apply NoDup_keep_first|apply list_filter_sublist].
    + intros r. rewrite list_elem_of_In, filter_In, <- list_elem_of_In, elem_of_keep_first.
      unfold complete_on, critical_columns. cbn [forallb].
      rewrite !andb_true_iff, !negb_true_iff. tauto.
Qed.

(** X9 ([clean_basic_data]): basic cleaning is idempotent: applied to a
    frame it returned, it returns that frame. *)
Theorem clean_basic_data_idempotent df d1 :
  clean_basic_data df = Ret d1 -> clean_basic_data d1 = Ret d1.
Proof.
  intros E. pose proof (clean_basic_data_rows _ _ E) as Hr.
  pose proof (clean_basic_data_columns _ _ E) as Hc.
  revert E. unfold clean_basic_data, dropna.
  destruct (forallb _ _) eqn:Hk; [|done]. intros _.
  assert (forallb (fun c => has_col c (drop_duplicates d1)) critical_columns = true) as ->.
  { apply critical_columns_present. pose proof (proj1 (critical_columns_present df) Hk) as Hk'.
    intros c Hcc. unfold has_col. rewrite Hc. by apply Hk'. }
  f_equal. apply frame_eq; simpl; [done|].
  assert (NoDup (rows d1)) as Hnd.
  { rewrite Hr. eapply sublist_NoDup; [apply NoDup_keep_first|apply list_filter_sublist]. }
  rewrite (keep_first_NoDup _ Hnd). rewrite Hr at 1 2.
  apply list_filter_all. apply Forall_forall.
  intros r Hin. apply list_elem_of_In, filter_In in Hin. tauto.
Qed.

Lemma insert_sorted_head by_ x l :
  Sorted (key_le by_) (x :: l) -> insert_sorted (key_leb by_) x l = x :: l.
Proof.
  intros H. apply Sorted_inv in H as [_ Hhd].
  destruct Hhd as [|y l' Hxy]; simpl; [done|].
  unfold key_le in Hxy. by rewrite Hxy.
Qed.

Lemma stable_sort_fixed by_ l :
  Sorted (key_le by_) l -> stable_sort (key_leb by_) l = l.
Proof.
  induction l as [|x l IH]; intros H; [done|].
  simpl. rewrite IH by (by apply Sorted_inv in H as [? _]).
  by apply insert_sorted_head.
Qed.

(** X10 ([final_cleanup]): on a frame that has both sort keys,
    [date_added] and [show_id], the final cleanup keeps the columns as
    they are and is idempotent: on its own output it removes nothing and
    moves no row. *)
Theorem final_cleanup_idempotent df :
  has_col "date_added" df = true ->
  has_col "show_id" df = true ->
  columns (final_cleanup df) = columns df
  /\ final_cleanup (final_cleanup df) = final_cleanup df.
Proof.
  intros Hd Hs. split; [apply final_cleanup_columns|].
  pose proof (final_cleanup_NoDup df) as Hnd.
  pose proof (final_cleanup_columns df) as Hc.
  apply frame_eq; [by rewrite !final_cleanup_columns|].
  rewrite (final_cleanup_rows_sorted (final_cleanup df)).
  - rewrite (keep_first_NoDup _ Hnd), (final_cleanup_rows_sorted df Hd Hs).
    apply stable_sort_fixed, stable_sort_Sorted.
  - unfold has_col. rewrite Hc. exact Hd.
  - unfold has_col. rewrite Hc. exact Hs.
Qed.

End Cleaning.

(** ** The quality report *)

Section QualityReport.
Import Pd Utils Transform.
Context {rt : Runtime}.

Lemma sum_bool_cons b l : sum_bool (b :: l) = (if b then 1 else 0) + sum_bool l.
Proof. unfold sum_bool. simpl. by destruct b. Qed.

Lemma filter_filter_ne (seen : list row) (r : row) (l : list row) :
  filter (fun x => x ∉ seen) (filter (fun x => x ≠ r) l)
  = filter (fun x => x ∉ r :: seen) l.
Proof.
  induction l as [|x l IH]; [done|].
  rewrite (filter_cons (fun x => x ≠ r)), (filter_cons (fun x => x ∉ r :: seen)).
  destruct (decide (x ≠ r)) as [Hne|He].
  - rewrite filter_cons. destruct (decide (x ∉ seen)) as [Hs|Hs].
    + rewrite decide_True by (rewrite not_elem_of_cons; done). by rewrite IH.
    + rewrite decide_False by (rewrite not_elem_of_cons; tauto). done.
  - rewrite decide_False; [done|]. rewrite not_elem_of_cons. tauto.
Qed.

Lemma duplicated_from_count (seen l : list row) :
  sum_bool (duplicated_from seen l)
  + length (filter (fun x => x ∉ seen) (keep_first l)) = length l.
Proof.
  revert seen. induction l as [|r l IH]; intros seen; [done|].
  simpl. rewrite sum_bool_cons, filter_cons, filter_filter_ne.
  specialize (IH (r :: seen)).
  case_bool_decide as Hin.
  - rewrite decide_False by tauto. lia.
  - rewrite decide_True by done. simpl. lia.
Qed.

Lemma filter_not_seen_nil (l : list row) : filter (fun x => x ∉ []) l = l.
Proof.
  induction l as [|x l IH]; [done|].
  rewrite filter_cons_True by apply not_elem_of_nil. by rewrite IH.
Qed.

(** X11 ([get_relatorio_qualidade_dados]): the number of duplicated rows
    the quality report gives is the number of rows that
    [drop_duplicates] removes. *)
Theorem quality_report_duplicates df :
  linhas_duplicadas (get_relatorio_qualidade_dados df) + len (drop_duplicates df)
  = total_linhas (get_relatorio_qualidade_dados df).
Proof.
  unfold get_relatorio_qualidade_dados, duplicated, len. simpl.
  pose proof (duplicated_from_count [] (rows df)) as H.
  by rewrite filter_not_seen_nil in H.
Qed.

Lemma ausentes_has_col df c :
  has_col c df = true ->
  ausentes (get_relatorio_qualidade_dados df) c
  = Some (sum_bool (List.map (fun r => isna (cell r c)) (rows df))).
Proof.
  unfold has_col, ausentes, get_relatorio_qualidade_dados, isnull_sum. simpl.
  intros H%bool_decide_eq_true. induction H as [c l|c c' l H IH]; simpl.
  - by rewrite String.eqb_refl.
  - destruct (String.eqb c' c) eqn:E; [|done].
    apply String.eqb_eq in E as ->. done.
Qed.

Lemma sum_bool_none {A} (f : A -> bool) l :
  Forall (fun x => f x = false) l -> sum_bool (List.map f l) = 0.
Proof.
  induction 1 as [|x l Hx Hl IH]; [done|].
  simpl. by rewrite sum_bool_cons, Hx, IH.
Qed.

(** X12 ([transform_netflix_data], [get_relatorio_qualidade_dados]): the
    quality report of the frame the transformer returns, which its last
    log line prints, counts no duplicated row and no missing [show_id]
    or [type]. *)
Theorem final_quality_report df :
  empty df = false ->
  validar_dados_netflix df = true ->
  exists T,
    transform_netflix_data (Some df) = Ret (Some T)
    /\ linhas_duplicadas (get_relatorio_qualidade_dados T) = 0
    /\ ausentes (get_relatorio_qualidade_dados T) "show_id" = Some 0
    /\ ausentes (get_relatorio_qualidade_dados T) "type" = Some 0.
Proof.
  intros Hne HK. destruct (transform_output df Hne HK) as (T & HT & HKT & Hrows).
  exists T. split; [done|].
  destruct (transform_output_shape df T HT) as [_ Hnd].
  split; [|split].
  - pose proof (quality_report_duplicates T) as H.
    rewrite (drop_duplicates_fixed _ Hnd) in H. simpl in H. unfold len in H.
    simpl. lia.
  - rewrite ausentes_has_col by (apply HKT; in_cols). f_equal.
    apply sum_bool_none. eapply Forall_impl; [exact Hrows|].
    intros r Hr. apply Hr.
  - rewrite ausentes_has_col by (apply HKT; in_cols). f_equal.
    apply sum_bool_none. eapply Forall_impl; [exact Hrows|].
    intros r Hr. apply Hr.
Qed.

End QualityReport.

(** ** The column index through the passes *)

Section ColumnIndex.
Import Pd Further.

Lemma when_col_in c body df :
  has_col c df = true -> when_col c body df = body df.
Proof. unfold when_col. by intros ->. Qed.

Lemma columns_assign c f df : columns (assign c f df) = add_col (columns df) c.
Proof. reflexivity. Qed.

Lemma add_col_in cols c : c ∈ cols -> add_col cols c = cols.
Proof. intros H. unfold add_col. by rewrite bool_decide_eq_true_2. Qed.

Lemma elem_of_add_col_l cols c c' : c ∈ cols -> c ∈ add_col cols c'.
Proof.
  intros H. unfold add_col. case_bool_decide; [done|].
  apply elem_of_app. by left.
Qed.

Lemma elem_of_add_col_same cols c : c ∈ add_col cols c.
Proof.
  unfold add_col. case_bool_decide; [done|].
  apply elem_of_app. right. by apply list_elem_of_singleton.
Qed.

Lemma add_col_idem cols c : add_col (add_col cols c) c = add_col cols c.
Proof. apply add_col_in, elem_of_add_col_same. Qed.

Lemma has_col_elem c df : has_col c df = true -> c ∈ columns df.
Proof. apply bool_decide_eq_true_1. Qed.

Lemma filter_not_in_snoc (cols : list string) c (l : list string) :
  c ∉ l ->
  filter (fun x => x ∉ (cols ++ [c])%list) l = filter (fun x => x ∉ cols) l.
Proof.
  induction l as [|x l IH]; intros Hc; [done|].
  apply not_elem_of_cons in Hc as [Hne Hc].
  rewrite !filter_cons, IH by done.
  destruct (decide (x ∉ cols)) as [Hx|Hx].
  - rewrite decide_True; [done|].
    rewrite elem_of_app, list_elem_of_singleton. intros [?|?]; [done|]. by subst.
  - rewrite decide_False; [done|].
    rewrite elem_of_app. tauto.
Qed.

(** Assigning new names one after the other appends those that are not
    there yet. *)
Lemma foldl_add_col cols new :
  NoDup new ->
  foldl add_col cols new = (cols ++ filter (fun c => c ∉ cols) new)%list.
Proof.
  intros Hnd. revert cols. induction Hnd as [|c new Hc Hnd IH]; intros cols; simpl.
  - by rewrite app_nil_r.
  - rewrite IH, filter_cons. unfold add_col. case_bool_decide as Hin.
    + by rewrite decide_False by tauto.
    + rewrite decide_True by done. rewrite filter_not_in_snoc by done.
      by rewrite <- app_assoc.
Qed.

End ColumnIndex.

(** Replaces the guards whose column is known to be there by their
    bodies. *)
Ltac guards_in HK :=
  repeat (rewrite when_col_in by has_col_tac HK; cbv beta zeta).

Ltac in_add_col HK :=
  lazymatch goal with
  | |- ?c ∈ Further.add_col _ ?c => apply elem_of_add_col_same
  | |- _ ∈ Further.add_col _ _ => apply elem_of_add_col_l; in_add_col HK
  | |- _ => apply has_col_elem; apply HK; in_cols
  end.

(** Removes from a column index the assignments to columns that the
    frame is known to have. *)
Ltac drop_known HK K :=
  lazymatch K with
  | ?c :: ?K' =>
      repeat match goal with
      | |- context [Further.add_col ?cols c] =>
          rewrite (add_col_in cols c) by in_add_col HK
      end;
      drop_known HK K'
  | _ => idtac
  end.

Ltac column_index HK K :=
  guards_in HK; rewrite ?columns_assign, ?add_col_idem;
  let K' := eval cbv in K in drop_known HK K'.

(** Names the function [g] with [t = g df] and reduces a goal about the
    rows of [t] to a triple for [g]. *)
Ltac rows_by_triple df HK HP K Pre :=
  lazymatch goal with
  | |- Forall ?P' (Pd.rows ?t) =>
      let g := eval pattern df in t in
      lazymatch g with
      | ?g0 _ => cut (row_triple K Pre g0 P'); [intros Ht; exact (Ht df HK HP)|]
      end
  end.

(** ** Transformer: dates, texts and the cells derived from them *)

Section FurtherRows.
Import Pd Transform Derived Further.
Context {rt : Runtime}.

Lemma timestamp_or_missing_to_datetime v : timestamp_or_missing (to_datetime v).
Proof.
  destruct v as [|s|q|b|t]; simpl; try done. by destruct (parse_datetime s).
Qed.

Lemma normalised_text v :
  normalised
    (replace_nan [""] (str_strip (replace_nan ["nan"; "None"] (Str (astype_str v))))).
Proof.
  simpl. case_bool_decide as H; [done|]. simpl.
  case_bool_decide as H2; [done|]. simpl. split.
  - apply PyStrFacts.strip_idemp.
  - intros E. apply H2. rewrite E. set_solver.
Qed.

Lemma cleared_clean v :
  cleared (replace_nan ["nan"; "None"; ""] (str_strip (Str (astype_str v)))).
Proof.
  simpl. case_bool_decide as H; [by split|].
  split; intros [= E]; apply H; rewrite E; set_solver.
Qed.

Lemma transform_dates_further :
  row_triple Utils.colunas_obrigatorias (fun _ => True) transform_dates date_ok.
Proof.
  unfold transform_dates. eapply triple_conseq; cycle 1.
  - repeat wp_step ltac:(unfold date_ok).
  - intros r _. cbv beta. split; [apply timestamp_or_missing_to_datetime|done].
Qed.

Lemma transform_dates_schema df :
  has_cols Utils.colunas_obrigatorias df ->
  columns (transform_dates df) = foldl add_col (columns df) date_columns.
Proof.
  intros HK. unfold transform_dates.
  column_index HK Utils.colunas_obrigatorias.
  unfold date_columns. cbn [foldl]. reflexivity.
Qed.

Lemma clean_text_columns_further :
  row_triple columns_after_dates date_ok clean_text_columns dated_text_ok.
Proof.
  unfold clean_text_columns. cbn [foldl text_columns]. unfold clean_text_column.
  eapply triple_conseq; cycle 1.
  - repeat wp_step ltac:(unfold dated_text_ok, date_ok, text_ok).
  - intros r H. cbv beta. split; [exact H|]. split.
    + repeat split; apply normalised_text.
    + apply cleared_clean.
Qed.

Lemma clean_text_columns_schema df :
  has_cols columns_after_dates df ->
  columns (clean_text_columns df) = columns df.
Proof.
  intros HK. unfold clean_text_columns. cbn [foldl text_columns].
  unfold clean_text_column.
  column_index HK columns_after_dates. reflexivity.
Qed.

Lemma engineer_features_further df :
  has_cols columns_after_dates df ->
  Forall dated_text_ok (rows df) ->
  exists df',
    engineer_features df = Ret df'
    /\ has_cols columns_after_features df'
    /\ Forall further_ok (rows df')
    /\ columns df' = foldl add_col (columns df) feature_columns.
Proof.
  intros HK HP. unfold engineer_features.
  cbn [foldl list_columns]. unfold count_items. norm_strings.
  rewrite content_age_ret; [|has_col_tac HK..].
  unfold mbind, result_bind. eexists. split; [reflexivity|]. split; [|split].
  - unfold columns_after_features, columns_after_dates.
    cbn [app Utils.colunas_obrigatorias]. has_cols_tac HK.
  - rows_by_triple df HK HP columns_after_dates dated_text_ok.
    eapply triple_conseq; cycle 1.
    + repeat wp_step ltac:(unfold further_ok, date_ok, text_ok, age_ok, description_ok).
    + intros r (H1 & H2 & H3). cbv beta.
      split; [exact H1|]. split; [exact H2|]. split; [exact H3|]. done.
  - column_index HK columns_after_dates.
    unfold feature_columns. cbn [foldl]. reflexivity.
Qed.

Lemma process_categorical_data_further :
  row_triple columns_after_features further_ok process_categorical_data further_ok.
Proof.
  unfold process_categorical_data. cbn [foldl categorical_columns].
  unfold astype_category. eapply triple_conseq; cycle 1.
  - repeat wp_step ltac:(unfold further_ok, date_ok, text_ok, age_ok, description_ok).
  - intros r H. cbv beta. exact H.
Qed.

Lemma process_categorical_data_schema df :
  has_cols columns_after_features df ->
  columns (process_categorical_data df) = foldl add_col (columns df) category_columns.
Proof.
  intros HK. unfold process_categorical_data. cbn [foldl categorical_columns].
  unfold astype_category.
  column_index HK columns_after_features.
  unfold category_columns. cbn [foldl]. reflexivity.
Qed.

(** Whenever the transformer returns a frame for one that has the
    required columns, the rows carry the cleaned texts and the cells
    derived from the date, and the column index is that of the input
    followed by the derived columns. *)
Lemma transform_output_further df T :
  Utils.validar_dados_netflix df = true ->
  transform_netflix_data (Some df) = Ret (Some T) ->
  Forall further_ok (rows T)
  /\ columns T = foldl add_col (columns df) derived_columns.
Proof.
  intros HK%has_cols_required (d1 & d4 & _ & E1 & E4 & ->)%transform_inv.
  assert (has_cols Utils.colunas_obrigatorias d1) as HK1.
  { intros c Hc. unfold has_col. rewrite (clean_basic_data_columns _ _ E1).
    by apply HK. }
  assert (Forall (fun _ : row => True) (rows d1)) as HP1 by by apply Forall_true.
  pose proof (transform_dates_columns _ HK1) as HK2.
  pose proof (transform_dates_further _ HK1 HP1) as HP2.
  pose proof (clean_text_columns_columns _ HK2) as HK3.
  pose proof (clean_text_columns_further _ HK2 HP2) as HP3.
  destruct (engineer_features_further _ HK3 HP3) as (d4' & E4' & HK4 & HP4 & HC4).
  assert (d4' = d4) as -> by congruence.
  split.
  - apply final_cleanup_Forall. by apply process_categorical_data_further.
  - rewrite final_cleanup_columns, process_categorical_data_schema by done.
    rewrite HC4, clean_text_columns_schema, transform_dates_schema by done.
    rewrite (clean_basic_data_columns _ _ E1).
    unfold derived_columns. by rewrite !foldl_app.
Qed.

End FurtherRows.

(** ** Words, commas and counts *)

Section Words.
Import PyStr.

Lemma count_words_from_le b s : count_words_from b s <= String.length s.
Proof.
  revert b. induction s as [|a s IH]; intros b; simpl; [done|].
  destruct (is_space a).
  - specialize (IH false). lia.
  - specialize (IH true). destruct b; lia.
Qed.

(** A cleaned text starts with a character that is not a blank. *)
Lemma stripped_head s :
  strip s = s -> s <> "" -> exists a t, s = String a t /\ is_space a = false.
Proof.
  intros Hs Hne. unfold strip in Hs.
  destruct (PyStrFacts.lstrip_head s) as [E|(a & t & E & Ha)]; rewrite E in Hs.
  - simpl in Hs. congruence.
  - simpl in Hs. rewrite Ha in Hs. destruct (rstrip t); rewrite <- Hs; eauto.
Qed.

Lemma count_words_pos s : strip s = s -> s <> "" -> 1 <= count_words s.
Proof.
  intros Hs Hne. destruct (stripped_head s Hs Hne) as (a & t & -> & Ha).
  unfold count_words. simpl. rewrite Ha. lia.
Qed.

Lemma contains_comma_count s : contains_comma s = true <-> 1 <= count_comma s.
Proof.
  induction s as [|a s IH]; simpl; [split; [done|lia]|].
  destruct (Ascii.eqb a ","); simpl; [split; [lia|done]|]. by rewrite IH.
Qed.

End Words.

(** ** Transformer: the schema and the cells the claims leave out *)

Section OutputFacts.
Import Pd Transform Derived Further.
Context {rt : Runtime}.

(** X13 ([transform_netflix_data] and its passes): the columns of the
    output are those of the input, in their order, followed by the
    derived columns that the input did not have already, in the order
    in which the passes create them; no pass drops or moves a column. *)
Theorem output_schema df :
  empty df = false ->
  Utils.validar_dados_netflix df = true ->
  exists T,
    transform_netflix_data (Some df) = Ret (Some T)
    /\ columns T
       = (columns df ++ filter (fun c => c ∉ columns df) derived_columns)%list.
Proof.
  intros Hne HK. destruct (transform_output df Hne HK) as (T & HT & _ & _).
  exists T. split; [done|].
  destruct (transform_output_further df T HK HT) as [_ ->].
  apply foldl_add_col. by apply (bool_decide_unpack _).
Qed.


(** X15 ([transform_dates], [engineer_features] within
    [transform_netflix_data]): in every row of the output [date_added]
    is a timestamp or missing, never a text; year, month and day name
    are read from that timestamp and are missing with it; the content
    age is the year added minus the release year, and missing when
    either is. *)
Theorem output_date_cells df :
  empty df = false ->
  Utils.validar_dados_netflix df = true ->
  exists T,
    transform_netflix_data (Some df) = Ret (Some T)
    /\ Forall (fun r =>
         ((exists t,
             cell r "date_added" = Ts t
             /\ cell r "date_added_year" = dt_year (Ts t)
             /\ cell r "date_added_month" = dt_month (Ts t)
             /\ cell r "date_added_day_of_week" = dt_day_name (Ts t))
          \/ (cell r "date_added" = NaN
              /\ cell r "date_added_year" = NaN
              /\ cell r "date_added_month" = NaN
              /\ cell r "date_added_day_of_week" = NaN
              /\ cell r "content_age_when_added" = NaN))
         /\ (forall y ry,
               cell r "date_added_year" = Num y -> cell r "release_year" = Num ry ->
               cell r "content_age_when_added" = Num (y - ry)%Qc)
         /\ (cell r "release_year" = NaN -> cell r "content_age_when_added" = NaN))
       (rows T).
Proof.
  intros Hne HK. destruct (transform_output df Hne HK) as (T & HT & _ & _).
  exists T. split; [done|].
  destruct (transform_output_further df T HK HT) as [Hmore _].
  eapply Forall_impl; [exact Hmore|].
  intros r ((Hts & Hy & Hm & Hd) & _ & _ & Hage & _). unfold age_ok in Hage.
  split; [|split].
  - destruct (cell r "date_added") as [|s|q|b|t] eqn:E; try done.
    + right. rewrite Hage, Hy. done.
    + left. eauto.
  - intros y ry Ey Er. by rewrite Hage, Ey, Er.
  - intros Er. rewrite Hage, Er. by destruct (cell r "date_added_year").
Qed.

(** X16 ([engineer_features] within [transform_netflix_data]): in every
    row of the output a description that is present has a length and a
    word count with 1 <= words <= length, and a missing description has
    both missing. *)
Theorem output_description_counts df :
  empty df = false ->
  Utils.validar_dados_netflix df = true ->
  exists T,
    transform_netflix_data (Some df) = Ret (Some T)
    /\ Forall (fun r =>
         (exists s,
            cell r "description" = Str s
            /\ cell r "description_length" = of_nat (String.length s)
            /\ cell r "description_word_count" = of_nat (PyStr.count_words s)
            /\ 1 <= PyStr.count_words s <= String.length s)
         \/ (cell r "description" = NaN
             /\ cell r "description_length" = NaN
             /\ cell r "description_word_count" = NaN))
       (rows T).
Proof.
  intros Hne HK. destruct (transform_output df Hne HK) as (T & HT & _ & _).
  exists T. split; [done|].
  destruct (transform_output_further df T HK HT) as [Hmore _].
  eapply Forall_impl; [exact Hmore|].
  intros r (_ & Ht & _ & _ & Hl & Hw).
  destruct Ht as (_ & _ & _ & _ & _ & _ & Hn).
  rewrite Hl, Hw. destruct (cell r "description") as [|s|q|b|t]; try done.
  - by right.
  - left. exists s. destruct Hn as [Hs Hne']. repeat split; try done.
    + by apply count_words_pos.
    + apply count_words_from_le.
Qed.

(** X17 ([engineer_features], [process_categorical_data] within
    [transform_netflix_data]): in every row of the output the genre
    diversity equals the number of genres; a title is international
    exactly when its number of countries is at least 2; and the primary
    country of a title that is not international is its country cell. *)
Theorem output_country_consistency df :
  empty df = false ->
  Utils.validar_dados_netflix df = true ->
  exists T,
    transform_netflix_data (Some df) = Ret (Some T)
    /\ Forall (fun r =>
         cell r "genre_diversity" = cell r "listed_in_count"
         /\ (exists n international,
               cell r "country_count" = of_nat n
               /\ cell r "is_international" = Bool international
               /\ (international = true <-> 2 <= n))
         /\ (cell r "is_international" = Bool false ->
             cell r "primary_country" = cell r "country"))
       (rows T).
Proof.
  intros Hne HK. destruct (transform_output df Hne HK) as (T & HT & _ & Hrows).
  exists T. split; [done|].
  destruct (transform_output_further df T HK HT) as [Hmore _].
  apply Forall_forall. intros r Hr.
  rewrite Forall_forall in Hrows, Hmore.
  destruct (Hrows r Hr) as (_ & _ & _ & _ & Hcounts & _ & [Hpc Hint] & [_ Hgd]).
  destruct Hcounts as (_ & _ & Hcc & Hlc).
  destruct (Hmore r Hr) as (_ & Ht & _).
  destruct Ht as (_ & _ & _ & Hn & _).
  split; [by rewrite Hgd, Hlc|].
  rewrite Hcc, Hint, Hpc.
  destruct (cell r "country") as [|s|q|b|t]; try done.
  - split; [|done]. exists 0, false. repeat split; try done. lia.
  - destruct Hn as [Hs Hne']. split.
    + exists (PyStr.count_comma s + 1), (PyStr.contains_comma s).
      split; [apply item_count_Str|]. split; [done|].
      rewrite contains_comma_count. lia.
    + simpl. intros [= Hc]. f_equal.
      pose proof (split_comma_first_spec s) as [_ Hsp]. rewrite Hc in Hsp.
      by rewrite <- Hsp.
Qed.

End OutputFacts.

(** ** Transformer: the outcomes without a frame *)

Section OutcomesOfTransform.
Import Pd Transform.
Context {rt : Runtime}.

(** X18 ([transform_netflix_data], [clean_basic_data]): the transformer
    returns [None] on [None] and on an empty frame, and on no other
    frame; on a frame that is not empty and lacks one of [show_id],
    [title], [type] it raises [KeyError], which comes from the [dropna]
    of the first pass. *)
Theorem transform_none_or_key_error df :
  transform_netflix_data None = Ret None
  /\ (transform_netflix_data (Some df) = Ret None <-> empty df = true)
  /\ (empty df = false ->
      (exists c, c ∈ critical_columns /\ has_col c df = false) ->
      transform_netflix_data (Some df) = Raise KeyError).
Proof.
  split; [reflexivity|]. unfold transform_netflix_data.
  destruct (empty df) eqn:He.
  - split; [done|]. intros [=].
  - split.
    + split; [|done]. intros H. exfalso.
      destruct (clean_basic_data df) as [d1|e]; [|discriminate H].
      rewrite bind_Ret in H.
      destruct (engineer_features _) as [d4|e]; discriminate H.
    + intros _ (c & Hc & Hn). unfold clean_basic_data, dropna.
      destruct (forallb _ _) eqn:E; [|reflexivity].
      pose proof (proj1 (critical_columns_present df) E c Hc) as E'. congruence.
Qed.

End OutcomesOfTransform.

(** ** Text cleaning, cell by cell *)

Section TextCleaning.
Import Pd Transform.
Context {rt : Runtime}.







End TextCleaning.

(** ** The statements with a hypothesis, on the sample data *)

Section FurtherWitnesses.
Import Pd Transform.

Lemma extract_from_api_no_retry_on_empty_witness :
  Extract.extract_from_api Sample.empty_then_data = None
  /\ Extract.requests_sent Sample.empty_then_data = [0; 1].
Proof.
  apply (extract_from_api_no_retry_on_empty Sample.empty_then_data 1 Sample.header_only).
  - vm_compute. lia.
  - reflexivity.
  - reflexivity.
  - intros [|j] Hj; [reflexivity|lia].
Defined.

Lemma run_full_pipeline_never_succeeds_witness :
  Pipeline.pipeline_end_time Pipeline.init = None
  /\ Pipeline.pipeline_report Pipeline.init = None
  /\ (@Pipeline.run_full_pipeline IsoRuntime.runtime Sample.all_good Pipeline.init).2
     = false.
Proof.
  split; [reflexivity|]. split; [reflexivity|].
  apply (@run_full_pipeline_never_succeeds IsoRuntime.runtime Sample.all_good
           Pipeline.init eq_refl eq_refl).
Defined.

Lemma clean_basic_data_idempotent_witness :
  exists d1,
    clean_basic_data Sample.catalog = Ret d1 /\ clean_basic_data d1 = Ret d1.
Proof.
  eexists. split; [vm_compute; reflexivity|].
  apply (clean_basic_data_idempotent Sample.catalog). vm_compute. reflexivity.
Defined.

Lemma final_quality_report_witness :
  empty Sample.catalog = false
  /\ Utils.validar_dados_netflix Sample.catalog = true
  /\ exists T,
       @transform_netflix_data IsoRuntime.runtime (Some Sample.catalog) = Ret (Some T)
       /\ Utils.linhas_duplicadas (Utils.get_relatorio_qualidade_dados T) = 0.
Proof.
  split; [vm_compute; reflexivity|]. split; [vm_compute; reflexivity|].
  destruct (@final_quality_report IsoRuntime.runtime Sample.catalog)
    as (T & HT & H & _); [vm_compute; reflexivity..|].
  exists T. split; [exact HT|exact H].
Defined.

Lemma output_schema_witness :
  empty Sample.catalog = false
  /\ Utils.validar_dados_netflix Sample.catalog = true
  /\ exists T,
       @transform_netflix_data IsoRuntime.runtime (Some Sample.catalog) = Ret (Some T)
       /\ columns T = (Utils.colunas_obrigatorias ++ Further.derived_columns)%list.
Proof.
  split; [vm_compute; reflexivity|]. split; [vm_compute; reflexivity|].
  destruct (@output_schema IsoRuntime.runtime Sample.catalog)
    as (T & HT & H); [vm_compute; reflexivity..|].
  exists T. split; [exact HT|]. rewrite H. vm_compute. reflexivity.
Defined.


Lemma output_date_cells_witness :
  empty Sample.catalog = false
  /\ Utils.validar_dados_netflix Sample.catalog = true
  /\ exists T,
       @transform_netflix_data IsoRuntime.runtime (Some Sample.catalog) = Ret (Some T)
       /\ Forall (fun r =>
            cell r "release_year" = NaN -> cell r "content_age_when_added" = NaN)
          (rows T).
Proof.
  split; [vm_compute; reflexivity|]. split; [vm_compute; reflexivity|].
  destruct (@output_date_cells IsoRuntime.runtime Sample.catalog)
    as (T & HT & H); [vm_compute; reflexivity..|].
  exists T. split; [exact HT|].
  eapply Forall_impl; [exact H|]. intros r Hr. apply Hr.
Defined.

Lemma output_description_counts_witness :
  empty Sample.catalog = false
  /\ Utils.validar_dados_netflix Sample.catalog = true
  /\ exists T,
       @transform_netflix_data IsoRuntime.runtime (Some Sample.catalog) = Ret (Some T)
       /\ Forall (fun r =>
            forall s, cell r "description" = Str s ->
            cell r "description_length" = of_nat (String.length s))
          (rows T).
Proof.
  split; [vm_compute; reflexivity|]. split; [vm_compute; reflexivity|].
  destruct (@output_description_counts IsoRuntime.runtime Sample.catalog)
    as (T & HT & H); [vm_compute; reflexivity..|].
  exists T. split; [exact HT|].
  eapply Forall_impl; [exact H|].
  intros r [(s' & E & Hl & _)|(E & _)] s Hs; rewrite Hs in E; [|discriminate].
  injection E as <-. exact Hl.
Defined.

Lemma output_country_consistency_witness :
  empty Sample.catalog = false
  /\ Utils.validar_dados_netflix Sample.catalog = true
  /\ exists T,
       @transform_netflix_data IsoRuntime.runtime (Some Sample.catalog) = Ret (Some T)
       /\ Forall (fun r => cell r "genre_diversity" = cell r "listed_in_count")
            (rows T).
Proof.
  split; [vm_compute; reflexivity|]. split; [vm_compute; reflexivity|].
  destruct (@output_country_consistency IsoRuntime.runtime Sample.catalog)
    as (T & HT & H); [vm_compute; reflexivity..|].
  exists T. split; [exact HT|].
  eapply Forall_impl; [exact H|]. intros r Hr. apply Hr.
Defined.


Lemma final_cleanup_idempotent_witness :
  has_col "date_added" Sample.unsorted = true
  /\ has_col "show_id" Sample.unsorted = true
  /\ columns (final_cleanup Sample.unsorted) = columns Sample.unsorted
  /\ final_cleanup (final_cleanup Sample.unsorted) = final_cleanup Sample.unsorted.
Proof.
  split; [reflexivity|]. split; [reflexivity|].
  apply (final_cleanup_idempotent Sample.unsorted); reflexivity.
Defined.

Lemma transform_none_or_key_error_witness :
  empty Sample.foreign_table = false
  /\ (exists c, c ∈ critical_columns /\ has_col c Sample.foreign_table = false)
  /\ @transform_netflix_data IsoRuntime.runtime (Some Sample.foreign_table)
     = Raise KeyError.
Proof.
  assert (exists c, c ∈ critical_columns /\ has_col c Sample.foreign_table = false)
    as Hc.
  { exists "title". split; [|reflexivity]. in_cols. }
  split; [reflexivity|]. split; [exact Hc|].
  destruct (@transform_none_or_key_error IsoRuntime.runtime Sample.foreign_table)
    as (_ & _ & H).
  apply H; [reflexivity|exact Hc].
Defined.

End FurtherWitnesses.
